(** * CodeGen Backend API: the generation endpoint of [app.py]

    A shallow embedding of [src/codegen-backend-api/app.py]: the secret
    redactor [redact], the provider selector [pick_provider], the two
    provider adapters [ollama_adapter] and [openai_adapter], and the request
    handler [generate] with its two delivery modes (buffered JSON and SSE).

    Conventions of the embedding.
    - A Python [str] is the list of its characters.  A character is an
      [ascii], read as a code point below 256; [lower_char] and [is_space]
      follow [str.lower] and [str.strip] on that range.
    - Values decoded from JSON and the dictionaries the handler builds are
      [pyval]s; a [dict] is an association list read by first match.
    - The process environment, the HTTP backend and the request are inputs.
      The backend is an oracle [network] answering each POST.
    - Effects (POSTs, yielded SSE frames, raised exceptions) live in the
      monad [io]: a computation extends a chronological [trace] and either
      returns or raises.
    - Building the JSON reply of a result renders it, and fails on a text
      that UTF-8 does not encode; which results those are is the input
      [render_error]. *)

From Stdlib Require Import List String Ascii Bool Arith ZArith Lia.
Import ListNotations.

Set Implicit Arguments.
Set Warnings "-register-all".

(* ================================================================== *)
(** * Python strings *)
(* ================================================================== *)

Module PyStr.

Definition str : Type := list ascii.

(** A literal of the source. *)
Definition lit (s : string) : str := list_ascii_of_string s.

Definition str_eqb (a b : str) : bool :=
  if list_eq_dec ascii_dec a b then true else false.

(** [str.lower()]: A-Z, and the upper-case letters of U+00C0..U+00DE
    (U+00D7, the multiplication sign, is not a letter). *)
Definition lower_char (c : ascii) : ascii :=
  let n := nat_of_ascii c in
  if ((65 <=? n) && (n <=? 90))
     || ((192 <=? n) && (n <=? 222) && negb (n =? 215))
  then ascii_of_nat (n + 32) else c.

Definition lower (s : str) : str := map lower_char s.

(** Whitespace as [str.strip()] sees it: U+0009..U+000D, U+001C..U+0020,
    U+0085 and U+00A0. *)
Definition is_space (c : ascii) : bool :=
  let n := nat_of_ascii c in
  ((9 <=? n) && (n <=? 13)) || ((28 <=? n) && (n <=? 32))
  || (n =? 133) || (n =? 160).

Fixpoint lstrip_by (p : ascii -> bool) (s : str) : str :=
  match s with
  | [] => []
  | c :: s' => if p c then lstrip_by p s' else s
  end.

Definition rstrip_by (p : ascii -> bool) (s : str) : str :=
  rev (lstrip_by p (rev s)).

(** [s.strip()] *)
Definition strip (s : str) : str := rstrip_by is_space (lstrip_by is_space s).

(** [s.rstrip(chars)] *)
Definition rstrip_chars (chars s : str) : str :=
  rstrip_by (fun c => existsb (Ascii.eqb c) chars) s.

(** [s.startswith(p)] *)
Fixpoint starts_with (p s : str) : bool :=
  match p, s with
  | [], _ => true
  | _ :: _, [] => false
  | a :: p', b :: s' => Ascii.eqb a b && starts_with p' s'
  end.

(** [sub in s] *)
Fixpoint str_in (sub s : str) : bool :=
  starts_with sub s
  || match s with
     | [] => false
     | _ :: s' => str_in sub s'
     end.

(** [s[:n]] for a non-negative [n] *)
Definition slice_to (n : nat) (s : str) : str := firstn n s.

(** [s.replace(old, new)] for a non-empty [old]: scan from the left; at an
    occurrence emit [new] and resume after it ([skip] counts the characters
    of the occurrence still to pass over). *)
Fixpoint replace_scan (old new : str) (skip : nat) (s : str) : str :=
  match s with
  | [] => []
  | c :: s' =>
      match skip with
      | S k => replace_scan old new k s'
      | O =>
          if starts_with old s
          then new ++ replace_scan old new (List.length old - 1) s'
          else c :: replace_scan old new 0 s'
      end
  end.

(** [s.replace(old, new)].  With an empty [old], Python puts [new] before
    every character and at the end. *)
Definition replace (old new s : str) : str :=
  match old with
  | [] => new ++ flat_map (fun c => c :: new) s
  | _ :: _ => replace_scan old new 0 s
  end.

(** Truthiness of a string and of an optional string: [x or d]. *)
Definition str_or (x d : str) : str :=
  match x with [] => d | _ :: _ => x end.

Definition opt_or (x : option str) (d : str) : str :=
  match x with
  | Some ((_ :: _) as s) => s
  | _ => d
  end.

End PyStr.
Import PyStr.

(* ================================================================== *)
(** * Python values, exceptions and effects *)
(* ================================================================== *)

Module Py.

(** The values [r.json()] can return and the handler builds.  A float is
    kept up to whether it is non-zero, which is all the truth test of
    [x or d] looks at. *)
Inductive pyval : Type :=
| PNone
| PBool (b : bool)
| PInt (z : Z)
| PFloat (nonzero : bool)
| PStr (s : str)
| PList (l : list pyval)
| PDict (d : list (str * pyval)).

Definition type_name (v : pyval) : str :=
  match v with
  | PNone => lit "NoneType"
  | PBool _ => lit "bool"
  | PInt _ => lit "int"
  | PFloat _ => lit "float"
  | PStr _ => lit "str"
  | PList _ => lit "list"
  | PDict _ => lit "dict"
  end.

Definition truthy (v : pyval) : bool :=
  match v with
  | PNone => false
  | PBool b => b
  | PInt z => negb (z =? 0)%Z
  | PFloat nz => nz
  | PStr s => match s with [] => false | _ => true end
  | PList l => match l with [] => false | _ => true end
  | PDict d => match d with [] => false | _ => true end
  end.

(** [x or d] *)
Definition py_or (x d : pyval) : pyval := if truthy x then x else d.

(** The exception classes that occur; every one derives from [Exception]. *)
Inductive exn_class : Type :=
| RuntimeError | AttributeError | TypeError | IndexError | KeyError
| JSONDecodeError | HTTPError.

(** An exception [e] with its text [str(e)]. *)
Record exn : Type := Exn { exn_cls : exn_class; exn_str : str }.

Inductive outcome (A : Type) : Type :=
| Return (a : A)
| Raise (e : exn).
Arguments Return {A} a.
Arguments Raise {A} e.

Definition no_attribute (v : pyval) (attr : string) : exn :=
  Exn AttributeError
      (lit "'" ++ type_name v ++ lit "' object has no attribute '"
           ++ lit attr ++ lit "'").

Fixpoint assoc (k : str) (d : list (str * pyval)) : option pyval :=
  match d with
  | [] => None
  | (k', v) :: d' => if str_eqb k k' then Some v else assoc k d'
  end.

(** [x.get(k, default)] *)
Definition py_get (x : pyval) (k : str) (default : pyval) : outcome pyval :=
  match x with
  | PDict d =>
      Return (match assoc k d with Some v => v | None => default end)
  | _ => Raise (no_attribute x "get")
  end.

(** [x[0]].  The keys of a decoded JSON object are strings, so [0] is never
    one of them. *)
Definition py_item0 (x : pyval) : outcome pyval :=
  match x with
  | PList (v :: _) => Return v
  | PList [] => Raise (Exn IndexError (lit "list index out of range"))
  | PStr (c :: _) => Return (PStr [c])
  | PStr [] => Raise (Exn IndexError (lit "string index out of range"))
  | PDict _ => Raise (Exn KeyError (lit "0"))
  | _ => Raise (Exn TypeError
                    (lit "'" ++ type_name x ++ lit "' object is not subscriptable"))
  end.

Definition obind {A B} (m : outcome A) (k : A -> outcome B) : outcome B :=
  match m with
  | Return a => k a
  | Raise e => Raise e
  end.

End Py.
Import Py.

Module Http.

Record http_request : Type := HttpRequest {
  req_url : str;
  req_headers : list (str * str);
  req_json : pyval
}.

(** A response as the adapters read it: [r.status_code], [r.text], and
    [r.json()], which raises when the body does not decode. *)
Record http_response : Type := HttpResponse {
  status_code : Z;
  text : str;
  json : outcome pyval
}.

(** The backend: what [client.post] gives for a request, a response or an
    exception of the transport (refused connection, timeout). *)
Definition network : Type := http_request -> outcome http_response.

End Http.
Import Http.

Module IO.

Definition bytes : Type := list ascii.

(** What a request does that can be observed from outside. *)
Inductive action : Type :=
| Posted (rq : http_request)
| Yielded (frame : bytes).

Definition trace : Type := list action.

Definition io (A : Type) : Type := network -> trace -> trace * outcome A.

Definition ret {A} (a : A) : io A := fun _ t => (t, Return a).

Definition raise {A} (e : exn) : io A := fun _ t => (t, Raise e).

Definition bind {A B} (m : io A) (k : A -> io B) : io B :=
  fun net t =>
    match m net t with
    | (t', Return a) => k a net t'
    | (t', Raise e) => (t', Raise e)
    end.

(** [try: m except Exception as e: h e] *)
Definition try_except {A} (m : io A) (h : exn -> io A) : io A :=
  fun net t =>
    match m net t with
    | (t', Return a) => (t', Return a)
    | (t', Raise e) => h e net t'
    end.

Definition lift {A} (o : outcome A) : io A := fun _ t => (t, o).

(** [await client.post(url, headers=..., json=...)] *)
Definition post (rq : http_request) : io http_response :=
  fun net t => (t ++ [Posted rq], net rq).

(** [yield frame] *)
Definition yield (frame : bytes) : io unit :=
  fun _ t => (t ++ [Yielded frame], Return tt).

Definition run {A} (m : io A) (net : network) : trace * outcome A := m net [].

Definition posts (t : trace) : list http_request :=
  flat_map (fun a => match a with Posted rq => [rq] | Yielded _ => [] end) t.

Definition frames (t : trace) : list bytes :=
  flat_map (fun a => match a with Yielded f => [f] | Posted _ => [] end) t.

(** [emits m net d o]: against the backend [net], [m] appends the actions
    [d] to whatever came before and ends with [o]. *)
Definition emits {A} (m : io A) (net : network) (d : trace) (o : outcome A) : Prop :=
  forall t0, m net t0 = (t0 ++ d, o).

End IO.
Import IO.

Declare Scope io_scope.
Delimit Scope io_scope with io.
Notation "x <- m ;; k" := (bind m (fun x => k))
  (at level 61, m at next level, right associativity) : io_scope.
Notation "m ;;; k" := (bind m (fun _ => k))
  (at level 61, right associativity) : io_scope.
Open Scope io_scope.

(* ================================================================== *)
(** * The application: [app.py] *)
(* ================================================================== *)

Module App.

(** The process environment, [os.environ] after [load_dotenv()]. *)
Definition environ : Type := list (str * str).

Fixpoint environ_get (E : environ) (name : str) : option str :=
  match E with
  | [] => None
  | (k, v) :: E' => if str_eqb name k then Some v else environ_get E' name
  end.

(** [env(name, default)], that is [os.getenv(name, default)]. *)
Definition env (E : environ) (name : str) (default : option str) : option str :=
  match environ_get E name with
  | Some v => Some v
  | None => default
  end.

(** [env(name, default)] where [default] is a string: the result is one. *)
Definition env_str (E : environ) (name : str) (default : str) : str :=
  match environ_get E name with
  | Some v => v
  | None => default
  end.

Record GenerateBody : Type := {
  prompt : str;
  provider : option str;
  model : option str
}.

(** Of the [Request] the handler reads one header, [accept]. *)
Record Request : Type := {
  headers_accept : option str
}.

(** [redact] (lines 37-38) *)
Definition redact (E : environ) (msg : str) : str :=
  replace (opt_or (env E (lit "OPENAI_API_KEY") (Some (lit ""))) (lit ""))
          (lit "***") msg.

Definition nl : str := ["010"%char].

Definition sys_prompt : str :=
  lit "You are a UI generator. Produce a complete minimal HTML page without scripts or iframes. "
  ++ lit "Return raw HTML only.".

(** The expression both adapters end with (lines 65-66 and 100-101): the
    text is kept when its lower-cased form holds [<html], and wrapped in a
    minimal document otherwise. *)
Definition normalize_html (text : str) : str :=
  if str_in (lit "<html") (lower text) then text
  else lit "<!doctype html><html><body><pre>" ++ text
           ++ lit "</pre></body></html>".

Definition normalize (text : str) : pyval :=
  PDict [ (lit "html", PStr (normalize_html text));
          (lit "content", PStr (lit "Preview updated."));
          (lit "messages", PNone) ].

(** [text.lower()] succeeds on a [str] only. *)
Definition normalize_value (v : pyval) : outcome pyval :=
  match v with
  | PStr s => Return (normalize s)
  | _ => Raise (no_attribute v "lower")
  end.

(** [ollama_adapter] (lines 41-66) *)
Definition ollama_adapter (E : environ)
    (prompt : str) (model base_url : option str) : io pyval :=
  let payload :=
    PDict [ (lit "model", PStr (opt_or model (env_str E (lit "OLLAMA_MODEL") (lit "llama3"))));
            (lit "prompt", PStr (sys_prompt ++ nl ++ lit "User: " ++ prompt
                                  ++ nl ++ lit "Assistant:"));
            (lit "stream", PBool false) ] in
  let url :=
    rstrip_chars (lit "/")
      (opt_or base_url (env_str E (lit "OLLAMA_BASE_URL") (lit "http://localhost:11434")))
    ++ lit "/api/generate" in
  r <- post (HttpRequest url [] payload) ;;
  if negb (status_code r =? 200)%Z
  then raise (Exn RuntimeError (lit "Ollama error: " ++ slice_to 200 (text r)))
  else
    data <- lift (json r) ;;
    text <- lift (py_get data (lit "response") (PStr (lit ""))) ;;
    lift (normalize_value text).

(** Line 99:
    [data.get("choices", [{}])[0].get("message", {}).get("content", "") or ""] *)
Definition extract_content (data : pyval) : outcome pyval :=
  obind (py_get data (lit "choices") (PList [PDict []])) (fun choices =>
  obind (py_item0 choices) (fun first =>
  obind (py_get first (lit "message") (PDict [])) (fun message =>
  obind (py_get message (lit "content") (PStr (lit ""))) (fun content =>
  Return (py_or content (PStr (lit ""))))))).

(** [openai_adapter] (lines 69-101) *)
Definition openai_adapter (E : environ)
    (prompt : str) (model api_key : option str) : io pyval :=
  let key :=
    match api_key with
    | Some ((_ :: _) as k) => Some k
    | _ => env E (lit "OPENAI_API_KEY") None
    end in
  match key with
  | None | Some [] => raise (Exn RuntimeError (lit "Missing OpenAI API key"))
  | Some ((_ :: _) as key) =>
      let m := opt_or model (env_str E (lit "OPENAI_MODEL") (lit "gpt-4o-mini")) in
      let url := lit "https://api.openai.com/v1/chat/completions" in
      let body :=
        PDict [ (lit "model", PStr m);
                (lit "messages",
                 PList [ PDict [ (lit "role", PStr (lit "system"));
                                 (lit "content", PStr sys_prompt) ];
                         PDict [ (lit "role", PStr (lit "user"));
                                 (lit "content", PStr prompt) ] ]);
                (lit "temperature", PFloat true);
                (lit "stream", PBool false) ] in
      let headers :=
        [ (lit "Authorization", lit "Bearer " ++ key);
          (lit "Content-Type", lit "application/json") ] in
      r <- post (HttpRequest url headers body) ;;
      if negb (status_code r =? 200)%Z
      then raise (Exn RuntimeError (lit "OpenAI error: " ++ slice_to 200 (text r)))
      else
        data <- lift (json r) ;;
        content <- lift (extract_content data) ;;
        lift (normalize_value content)
  end.

(** [pick_provider] (lines 104-106) *)
Definition pick_provider (E : environ) (req_provider : option str) : str :=
  let pv := strip (lower (opt_or req_provider (env_str E (lit "PROVIDER") (lit "ollama")))) in
  if str_eqb pv (lit "openai") then lit "openai" else lit "ollama".

(** [want_sse] (lines 109-111) *)
Definition want_sse (request : Request) : bool :=
  let accept := match headers_accept request with Some a => a | None => lit "" end in
  str_in (lit "text/event-stream") (lower (str_or accept (lit ""))).

(** [s.encode("utf-8")] on code points below 256. *)
Definition encode_utf8 (s : str) : bytes :=
  flat_map (fun c =>
    let n := nat_of_ascii c in
    if n <? 128 then [c]
    else [ascii_of_nat (192 + n / 64); ascii_of_nat (128 + n mod 64)]) s.

(** [sse_event] (lines 114-115) *)
Definition sse_event (event data : str) : bytes :=
  encode_utf8 (lit "event: " ++ event ++ nl ++ lit "data: " ++ data ++ nl ++ nl).

Inductive response : Type :=
| JSONResponse (content : pyval) (status_code : Z)
| StreamingResponse (body : io unit) (media_type : str).

(** [JSONResponse(content, status_code=...)] renders its body when it is
    built, and raises on a text it cannot encode.  [render_error] says for
    which contents that is, and with what exception. *)
Definition json_response (render_error : pyval -> option exn)
    (content : pyval) (status : Z) : io response :=
  match render_error content with
  | Some e => raise e
  | None => ret (JSONResponse content status)
  end.

Section Handler.

(** [json.dumps], of the standard library. *)
Variable json_dumps : pyval -> str.

(** The text of the status chunk, the literal of line 164.  It holds a
    character above U+00FF; the handler passes it on without reading it. *)
Variable status_payload : str.

(** Whether a generation result renders as a JSON body: [Some e] when
    building the reply raises [e].  A text decoded from JSON may hold a
    lone surrogate, which UTF-8 does not encode; the characters of this
    model leave those out, so which results fail is an input.  The fixed
    text of line 146 and the exception texts of line 186 do render. *)
Variable render_error : pyval -> option exn.

Variable E : environ.

(** [_do_call] (lines 151-159), with the variables it closes over. *)
Definition _do_call (provider prompt : str) (model : option str)
    (x_ollama_base x_openai_key : option str) : io pyval :=
  try_except
    (if str_eqb provider (lit "openai")
     then openai_adapter E prompt model x_openai_key
     else ollama_adapter E prompt model x_ollama_base)
    (fun e =>
       let msg := slice_to 200 (redact E (exn_str e)) in
       raise (Exn RuntimeError msg)).

(** [sse_stream] (lines 162-178) *)
Definition sse_stream (provider prompt : str) (model : option str)
    (x_ollama_base x_openai_key : option str) : io unit :=
  yield (sse_event (lit "chunk") status_payload) ;;;
  try_except
    (result <- _do_call provider prompt model x_ollama_base x_openai_key ;;
     html <- lift (py_get result (lit "html") PNone) ;;
     content <- lift (py_get result (lit "content") PNone) ;;
     let final :=
       PDict [ (lit "done", PBool true);
               (lit "html", py_or html (PStr (lit "")));
               (lit "content", py_or content (PStr (lit "Preview updated."))) ] in
     yield (sse_event (lit "done") (json_dumps final)))
    (fun e =>
       let err := PDict [ (lit "message", PStr (exn_str e)) ] in
       yield (sse_event (lit "error") (json_dumps err))).

(** [generate] (lines 129-186) *)
Definition generate (request : Request) (body : GenerateBody)
    (x_ollama_base x_openai_key : option str) : io response :=
  let prompt := strip (str_or (prompt body) (lit "")) in
  match prompt with
  | [] => ret (JSONResponse (PDict [ (lit "error", PStr (lit "Missing prompt")) ]) 400)
  | _ :: _ =>
      let provider := pick_provider E (provider body) in
      let model :=
        match strip (opt_or (model body) (lit "")) with
        | [] => None
        | m => Some m
        end in
      if want_sse request
      then ret (StreamingResponse
                  (sse_stream provider prompt model x_ollama_base x_openai_key)
                  (lit "text/event-stream"))
      else
        try_except
          (result <- _do_call provider prompt model x_ollama_base x_openai_key ;;
           json_response render_error result 200)
          (fun e => ret (JSONResponse (PDict [ (lit "error", PStr (exn_str e)) ]) 500))
  end.

(** The server sends what the handler returned: a [JSONResponse] as it is,
    a [StreamingResponse] by running its generator to the end. *)
Definition serve (request : Request) (body : GenerateBody)
    (x_ollama_base x_openai_key : option str) : io response :=
  resp <- generate request body x_ollama_base x_openai_key ;;
  match resp with
  | JSONResponse _ _ => ret resp
  | StreamingResponse stream _ => stream ;;; ret resp
  end.

End Handler.

(** The event name a frame carries: what follows [event: ] on its first
    line. *)
Fixpoint until_newline (f : bytes) : bytes :=
  match f with
  | [] => []
  | c :: f' => if Ascii.eqb c "010" then [] else c :: until_newline f'
  end.

Definition frame_event (f : bytes) : str := until_newline (skipn 7 f).

End App.
Import App.

(* ================================================================== *)
(** * Vocabulary of the statements *)
(* ================================================================== *)

Module Spec.

(** What an adapter call leaves behind: at most one POST, no frame; a
    value it returns is a normalized result. *)
Definition adapter_run (d : trace) (o : outcome pyval) : Prop :=
  frames d = []
  /\ List.length (posts d) <= 1
  /\ (forall v, o = Return v -> exists text, v = normalize text).

(** The credential the hosted adapter resolves: the override when it is a
    non-empty string, else the configured one when that is non-empty. *)
Definition resolved_key (E : environ) (api_key : option str) : option str :=
  match api_key with
  | Some ((_ :: _) as k) => Some k
  | _ => match environ_get E (lit "OPENAI_API_KEY") with
         | Some ((_ :: _) as k) => Some k
         | _ => None
         end
  end.

(** The adapter [_do_call] tries, by provider. *)
Definition chosen_adapter (E : environ) (provider prompt : str)
    (model x_ollama_base x_openai_key : option str) : io pyval :=
  if str_eqb provider (lit "openai")
  then openai_adapter E prompt model x_openai_key
  else ollama_adapter E prompt model x_ollama_base.

(** The text of an adapter failure as it leaves [_do_call]: redacted, then
    cut to 200 characters. *)
Definition surfaced (E : environ) (e : exn) : str :=
  slice_to 200 (redact E (exn_str e)).

Definition surface (E : environ) (o : outcome pyval) : outcome pyval :=
  match o with
  | Return v => Return v
  | Raise e => Raise (Exn RuntimeError (surfaced E e))
  end.

(** The model the handler passes on: [(body.model or "").strip() or None]. *)
Definition model_of (body : GenerateBody) : option str :=
  match strip (opt_or (model body) (lit "")) with
  | [] => None
  | m => Some m
  end.

(** The adapter a request with a valid prompt is routed to. *)
Definition adapter_of (E : environ) (body : GenerateBody)
    (x_ollama_base x_openai_key : option str) : io pyval :=
  chosen_adapter E (pick_provider E (provider body)) (strip (prompt body))
                 (model_of body) x_ollama_base x_openai_key.

Definition field (v : pyval) (k : string) : pyval :=
  match py_get v (lit k) PNone with
  | Return x => x
  | Raise _ => PNone
  end.

Definition chunk_frame (status_payload : str) : bytes :=
  sse_event (lit "chunk") status_payload.

Definition done_frame (json_dumps : pyval -> str) (v : pyval) : bytes :=
  sse_event (lit "done")
    (json_dumps
       (PDict [ (lit "done", PBool true);
                (lit "html", py_or (field v "html") (PStr (lit "")));
                (lit "content",
                 py_or (field v "content") (PStr (lit "Preview updated."))) ])).

Definition error_frame (json_dumps : pyval -> str) (msg : str) : bytes :=
  sse_event (lit "error") (json_dumps (PDict [ (lit "message", PStr msg) ])).

(** The last frame of a stream, by the outcome of the adapter. *)
Definition terminal_frame (json_dumps : pyval -> str) (E : environ)
    (o : outcome pyval) : bytes :=
  match o with
  | Return v => done_frame json_dumps v
  | Raise e => error_frame json_dumps (surfaced E e)
  end.

(** The buffered answer, by the outcome of the adapter: a result that
    renders, a result that does not, a failure. *)
Definition buffered_reply (render_error : pyval -> option exn) (E : environ)
    (o : outcome pyval) : response :=
  match o with
  | Return v =>
      match render_error v with
      | None => JSONResponse v 200
      | Some e' => JSONResponse (PDict [ (lit "error", PStr (exn_str e')) ]) 500
      end
  | Raise e => JSONResponse (PDict [ (lit "error", PStr (surfaced E e)) ]) 500
  end.

(** A credential the mask cannot rebuild: it neither starts nor ends with
    [*] and holds no three [*] in a row. *)
Definition mask_safe (key : str) : bool :=
  negb (starts_with (lit "*") key)
  && negb (starts_with (lit "*") (rev key))
  && negb (str_in (lit "***") key).

(** The same of a part of a credential, which may start with [*]. *)
Definition tail_safe (p : str) : bool :=
  match p with
  | [] => true
  | _ :: _ => negb (starts_with (lit "*") (rev p)) && negb (str_in (lit "***") p)
  end.

(** What follows the first occurrence of [m] in [s], if there is one. *)
Fixpoint after_first (m s : str) : option str :=
  if starts_with m s then Some (skipn (List.length m) s)
  else match s with
       | [] => None
       | _ :: s' => after_first m s'
       end.

(** A complete HTML document, read as: the root element is opened and,
    after that, closed (in any letter case). *)
Definition complete_document (s : str) : bool :=
  match after_first (lit "<html") (lower s) with
  | Some rest => str_in (lit "</html>") rest
  | None => false
  end.

Definition missing_prompt : response :=
  JSONResponse (PDict [ (lit "error", PStr (lit "Missing prompt")) ]) 400.

(** The request [ollama_adapter] posts (lines 53-60). *)
Definition ollama_request (E : environ) (prompt : str)
    (model base_url : option str) : http_request :=
  HttpRequest
    (rstrip_chars (lit "/")
       (opt_or base_url (env_str E (lit "OLLAMA_BASE_URL") (lit "http://localhost:11434")))
     ++ lit "/api/generate")
    []
    (PDict [ (lit "model", PStr (opt_or model (env_str E (lit "OLLAMA_MODEL") (lit "llama3"))));
             (lit "prompt", PStr (sys_prompt ++ nl ++ lit "User: " ++ prompt
                                   ++ nl ++ lit "Assistant:"));
             (lit "stream", PBool false) ]).

(** The request [openai_adapter] posts with the credential [key]
    (lines 78-95). *)
Definition openai_request (E : environ) (prompt : str)
    (model : option str) (key : str) : http_request :=
  HttpRequest
    (lit "https://api.openai.com/v1/chat/completions")
    [ (lit "Authorization", lit "Bearer " ++ key);
      (lit "Content-Type", lit "application/json") ]
    (PDict [ (lit "model", PStr (opt_or model (env_str E (lit "OPENAI_MODEL") (lit "gpt-4o-mini"))));
             (lit "messages",
              PList [ PDict [ (lit "role", PStr (lit "system"));
                              (lit "content", PStr sys_prompt) ];
                      PDict [ (lit "role", PStr (lit "user"));
                              (lit "content", PStr prompt) ] ]);
             (lit "temperature", PFloat true);
             (lit "stream", PBool false) ]).

(** What an adapter makes of a backend's answer [r]: a status other than
    200 is an error carrying the first 200 characters of the body, without
    decoding it; otherwise the decoded body is read by [read]. *)
Definition adapter_outcome (label : string) (read : pyval -> outcome pyval)
    (answer : outcome http_response) : outcome pyval :=
  obind answer (fun r =>
    if negb (status_code r =? 200)%Z
    then Raise (Exn RuntimeError (lit label ++ slice_to 200 (text r)))
    else obind (json r) (fun data => obind (read data) normalize_value)).

(** The data line of a frame: what follows [data: ] on its second line. *)
Fixpoint after_newline (f : bytes) : bytes :=
  match f with
  | [] => []
  | c :: f' => if Ascii.eqb c "010" then f' else after_newline f'
  end.

Definition frame_data (f : bytes) : bytes :=
  until_newline (skipn 6 (after_newline f)).

(** Reading UTF-8 back, for the one- and two-byte forms [encode_utf8]
    writes. *)
Fixpoint decode_utf8 (b : bytes) : str :=
  match b with
  | [] => []
  | c :: b' =>
      if nat_of_ascii c <? 128 then c :: decode_utf8 b'
      else match b' with
           | [] => []
           | c2 :: b'' =>
               ascii_of_nat ((nat_of_ascii c - 192) * 64 + (nat_of_ascii c2 - 128))
               :: decode_utf8 b''
           end
  end.

Definition no_newline (s : str) : bool :=
  forallb (fun c => negb (Ascii.eqb c "010")) s.

End Spec.
Import Spec.

(* ================================================================== *)
(** * Concrete requests, environments and backends *)
(* ================================================================== *)

Module Scenario.

(** A stand-in for [json.dumps]; the statements never read its text. *)
Definition dumps (v : pyval) : str :=
  match v with
  | PDict d => lit "{" ++ List.concat (map (fun kv => fst kv ++ lit ";") d) ++ lit "}"
  | _ => lit "?"
  end.

Definition status : str := lit "status: Generating".

(** Every result renders. *)
Definition renders (v : pyval) : option exn := None.

Definition accept_json : Request := {| headers_accept := Some (lit "application/json") |}.
Definition accept_sse : Request := {| headers_accept := Some (lit "text/event-stream") |}.

Definition ask (p : string) (pv : option string) : GenerateBody :=
  {| prompt := lit p; provider := option_map lit pv; model := None |}.

(** A backend that answers every POST with the given status and body.  The
    body decodes as JSON when [decoded] says so. *)
Definition backend (code : Z) (body : string) (decoded : option pyval) : network :=
  fun _ =>
    Return (HttpResponse code (lit body)
              (match decoded with
               | Some v => Return v
               | None => Raise (Exn JSONDecodeError (lit "Expecting value"))
               end)).

Definition with_key (k : string) : environ := [(lit "OPENAI_API_KEY", lit k)].

End Scenario.

(* ================================================================== *)
(** * Strings: containment, prefixes, replacement, trimming *)
(* ================================================================== *)

Section StringFacts.

Lemma str_eqb_eq (a b : str) : str_eqb a b = true <-> a = b.
Proof.
  unfold str_eqb. destruct (list_eq_dec ascii_dec a b); split; intros; congruence.
Qed.

Lemma str_eqb_refl (a : str) : str_eqb a a = true.
Proof. apply str_eqb_eq. reflexivity. Qed.

Lemma starts_with_iff (p s : str) :
  starts_with p s = true <-> exists r, s = p ++ r.
Proof.
  revert s. induction p as [|a p IH]; intros s; simpl.
  - split; [intros _; exists s; reflexivity | reflexivity].
  - destruct s as [|b s].
    + split; [discriminate | intros [r Hr]; discriminate].
    + rewrite andb_true_iff, Ascii.eqb_eq, IH. split.
      * intros [-> [r ->]]. exists r. reflexivity.
      * intros [r Hr]. injection Hr as -> ->. split; [reflexivity | exists r; reflexivity].
Qed.

Lemma starts_with_app (p r : str) : starts_with p (p ++ r) = true.
Proof. apply starts_with_iff. exists r. reflexivity. Qed.

(** [sub in s] holds exactly when [s] splits around a copy of [sub]. *)
Lemma str_in_iff (sub s : str) :
  str_in sub s = true <-> exists pre post, s = pre ++ sub ++ post.
Proof.
  induction s as [|c s IH]; simpl.
  - rewrite orb_false_r, starts_with_iff. split.
    + intros [r Hr]. exists [], r. exact Hr.
    + intros [pre [post H]]. destruct pre; [exists post; exact H | discriminate].
  - rewrite orb_true_iff, starts_with_iff, IH. split.
    + intros [[r Hr] | [pre [post H]]].
      * exists [], r. exact Hr.
      * exists (c :: pre), post. simpl. rewrite H. reflexivity.
    + intros [pre [post H]]. destruct pre as [|a pre].
      * left. exists post. exact H.
      * right. injection H as _ H. exists pre, post. exact H.
Qed.

Lemma str_in_app_intro (sub pre post : str) :
  str_in sub (pre ++ sub ++ post) = true.
Proof. apply str_in_iff. exists pre, post. reflexivity. Qed.

Lemma str_in_nonempty (sub s : str) :
  sub <> [] -> str_in sub s = true -> s <> [].
Proof.
  intros Hsub H ->. destruct sub; [congruence | discriminate].
Qed.

(** A slice [s[:n]] holds no occurrence that [s] does not hold. *)
Lemma str_in_slice_to (sub s : str) (n : nat) :
  str_in sub s = false -> str_in sub (slice_to n s) = false.
Proof.
  intros H. destruct (str_in sub (slice_to n s)) eqn:Hin; [|reflexivity].
  apply str_in_iff in Hin. destruct Hin as [pre [post Hin]].
  assert (Hs : str_in sub s = true).
  { apply str_in_iff. exists pre, (post ++ skipn n s).
    rewrite <- (firstn_skipn n s) at 1. unfold slice_to in Hin. rewrite Hin.
    rewrite <- !app_assoc. reflexivity. }
  congruence.
Qed.

Lemma slice_to_length (n : nat) (s : str) : List.length (slice_to n s) <= n.
Proof. unfold slice_to. rewrite length_firstn. lia. Qed.

Lemma lower_app (a b : str) : lower (a ++ b) = lower a ++ lower b.
Proof. apply map_app. Qed.

(** ** Trimming *)

Lemma lstrip_by_all (p : ascii -> bool) (s : str) :
  forallb p s = true -> lstrip_by p s = [].
Proof.
  induction s as [|c s IH]; simpl; [reflexivity|].
  intros H. apply andb_true_iff in H. destruct H as [Hc Hs].
  rewrite Hc. exact (IH Hs).
Qed.

Lemma lstrip_by_nil_all (p : ascii -> bool) (s : str) :
  lstrip_by p s = [] -> forallb p s = true.
Proof.
  induction s as [|c s IH]; simpl; [reflexivity|].
  destruct (p c); [exact IH | discriminate].
Qed.

Lemma lstrip_by_head (p : ascii -> bool) (s : str) (c : ascii) (r : str) :
  lstrip_by p s = c :: r -> p c = false.
Proof.
  induction s as [|a s IH]; simpl; [discriminate|].
  destruct (p a) eqn:Ha; [exact IH|].
  intros H. injection H as -> _. exact Ha.
Qed.

(** A string trims to nothing exactly when it is all whitespace. *)
Lemma strip_nil_iff (s : str) : strip s = [] <-> forallb is_space s = true.
Proof.
  unfold strip, rstrip_by. split.
  - intros H. destruct (lstrip_by is_space s) as [|c r] eqn:Hl.
    + apply lstrip_by_nil_all. exact Hl.
    + exfalso. apply (f_equal (@rev ascii)) in H. rewrite rev_involutive in H.
      simpl in H. apply lstrip_by_nil_all in H.
      rewrite forallb_app in H. apply andb_true_iff in H. destruct H as [_ H].
      simpl in H. rewrite (lstrip_by_head _ _ Hl) in H. discriminate.
  - intros H. rewrite (lstrip_by_all _ _ H). reflexivity.
Qed.

(** ** Replacement *)

Variables (o : ascii) (key' : str) (m : ascii) (mask' : str).
Let key : str := o :: key'.
Let mask : str := m :: mask'.

Lemma replace_scan_skip (k : nat) (s : str) :
  replace_scan key mask k s = replace_scan key mask 0 (skipn k s).
Proof.
  revert k. induction s as [|c s IH]; intros k.
  - destruct k; reflexivity.
  - destruct k as [|k]; [reflexivity|]. simpl skipn. rewrite <- IH. reflexivity.
Qed.

(** The scan, unfolded one step. *)
Lemma replace_scan_step (c : ascii) (s : str) :
  replace_scan key mask 0 (c :: s) =
  if starts_with key (c :: s)
  then mask ++ replace_scan key mask 0 (skipn (List.length key') s)
  else c :: replace_scan key mask 0 s.
Proof.
  change (replace_scan key mask 0 (c :: s))
    with (if starts_with key (c :: s)
          then mask ++ replace_scan key mask (List.length key - 1) s
          else c :: replace_scan key mask 0 s).
  destruct (starts_with key (c :: s)); [|reflexivity].
  rewrite replace_scan_skip.
  replace (List.length key - 1) with (List.length key')
    by (unfold key; simpl; lia).
  reflexivity.
Qed.

(** Without an occurrence nothing is replaced. *)
Lemma replace_scan_absent (s : str) :
  str_in key s = false -> replace_scan key mask 0 s = s.
Proof.
  induction s as [|c s IH]; [reflexivity|].
  intros H. rewrite replace_scan_step.
  change (str_in key (c :: s)) with (starts_with key (c :: s) || str_in key s) in H.
  apply orb_false_iff in H. destruct H as [H1 H2].
  rewrite H1, (IH H2). reflexivity.
Qed.

Hypothesis mask_fresh : forall c, In c mask -> ~ In c key.

(** What the output starts with, as long as it is free of the mask's first
    character, the input started with too. *)
Lemma replace_scan_prefix (p s : str) :
  ~ In m p ->
  starts_with p (replace_scan key mask 0 s) = true ->
  starts_with p s = true.
Proof.
  revert p. induction s as [|c s IH]; intros p Hp H.
  - exact H.
  - destruct p as [|a p]; [reflexivity|].
    rewrite replace_scan_step in H.
    destruct (starts_with key (c :: s)).
    + simpl in H. apply andb_true_iff in H. destruct H as [H _].
      apply Ascii.eqb_eq in H. subst a. exfalso. apply Hp. left. reflexivity.
    + simpl in H. apply andb_true_iff in H. destruct H as [Ha Hr].
      simpl. rewrite Ha. simpl. apply IH; [|exact Hr].
      intros Hin. apply Hp. right. exact Hin.
Qed.

Lemma str_in_after_mask (q t : str) :
  (forall c, In c q -> ~ In c key) ->
  str_in key t = false -> str_in key (q ++ t) = false.
Proof.
  intros Hq Ht. induction q as [|a q IH]; [exact Ht|].
  assert (IH' : str_in key (q ++ t) = false)
    by (apply IH; intros c Hc; apply Hq; right; exact Hc).
  change (starts_with key (a :: q ++ t) || str_in key (q ++ t) = false).
  rewrite IH', orb_false_r. unfold key. simpl.
  destruct (Ascii.eqb o a) eqn:Hoa; [|reflexivity].
  apply Ascii.eqb_eq in Hoa. subst a. exfalso.
  apply (Hq o); left; reflexivity.
Qed.

Lemma replace_scan_clean_upto (n : nat) :
  forall s, List.length s <= n -> str_in key (replace_scan key mask 0 s) = false.
Proof.
  induction n as [|n IH]; intros s Hlen.
  - destruct s; [reflexivity | simpl in Hlen; lia].
  - destruct s as [|c s]; [reflexivity|].
    simpl in Hlen. rewrite replace_scan_step.
    destruct (starts_with key (c :: s)) eqn:Hsw.
    + apply str_in_after_mask; [exact mask_fresh|].
      apply IH. rewrite length_skipn. lia.
    + change (str_in key (c :: replace_scan key mask 0 s))
        with (starts_with key (c :: replace_scan key mask 0 s)
              || str_in key (replace_scan key mask 0 s)).
      rewrite (IH s) by lia. rewrite orb_false_r.
      destruct (starts_with key (c :: replace_scan key mask 0 s)) eqn:Hout;
        [|reflexivity].
      unfold key in Hout, Hsw. simpl in Hout, Hsw.
      apply andb_true_iff in Hout. destruct Hout as [Hoc Hrest].
      rewrite Hoc in Hsw. simpl in Hsw.
      rewrite replace_scan_prefix in Hsw; [discriminate | | exact Hrest].
      intros Hin. apply (mask_fresh (c:=m)); [left; reflexivity | right; exact Hin].
Qed.

(** After replacement no occurrence of [key] is left. *)
Lemma replace_scan_clean (s : str) :
  str_in key (replace_scan key mask 0 s) = false.
Proof. apply (replace_scan_clean_upto (n := List.length s)). lia. Qed.

End StringFacts.

Example replace_ex1 :
  replace (lit "ab") (lit "***") (lit "xabyabab") = lit "x***y******".
Proof. reflexivity. Qed.

Example replace_ex2 :
  replace (lit "aa") (lit "-") (lit "aaa") = lit "-a".
Proof. reflexivity. Qed.

Example replace_ex3 :
  replace (lit "") (lit "***") (lit "abc") = lit "***a***b***c***".
Proof. reflexivity. Qed.

Example strip_ex : strip (lit "  Open AI  ") = lit "Open AI".
Proof. reflexivity. Qed.

Example lower_ex : lower (lit "<HTML lang=EN>") = lit "<html lang=en>".
Proof. reflexivity. Qed.

(** ** Credentials the mask cannot rebuild *)

Section MaskSafe.

Variables (o : ascii) (key' : str).
Let key : str := o :: key'.
Let scan (s : str) : str := replace_scan key (lit "***") 0 s.

Lemma starts_with_star_app (l l' : str) :
  l <> [] -> starts_with (lit "*") (l ++ l') = starts_with (lit "*") l.
Proof. destruct l as [|a l]; [congruence | reflexivity]. Qed.

Lemma tail_safe_tail (a : ascii) (p : str) :
  tail_safe (a :: p) = true -> tail_safe p = true.
Proof.
  destruct p as [|b p]; [reflexivity|].
  unfold tail_safe. intros H. apply andb_true_iff in H. destruct H as [H1 H2].
  apply andb_true_iff. split.
  - change (rev (a :: b :: p)) with (rev (b :: p) ++ [a]) in H1.
    rewrite starts_with_star_app in H1; [exact H1|].
    intros Hnil. apply (f_equal (@List.length ascii)) in Hnil.
    rewrite length_rev in Hnil. discriminate Hnil.
  - apply negb_true_iff. apply negb_true_iff in H2.
    change (str_in (lit "***") (a :: b :: p))
      with (starts_with (lit "***") (a :: b :: p) || str_in (lit "***") (b :: p)) in H2.
    apply orb_false_iff in H2. exact (proj2 H2).
Qed.

(** A safe part never matches the start of the mask: within its first
    three characters it has one that is not [*]. *)
Lemma tail_safe_not_mask (p t : str) :
  p <> [] -> tail_safe p = true ->
  starts_with p ("*"%char :: "*"%char :: "*"%char :: t) = false.
Proof.
  intros Hne H.
  destruct p as [|a [|b [|c p]]]; [congruence | | |].
  - simpl. destruct (Ascii.eqb_spec a "*") as [-> |]; [discriminate H | reflexivity].
  - simpl. destruct (Ascii.eqb_spec a "*") as [-> |]; [|reflexivity].
    destruct (Ascii.eqb_spec b "*") as [-> |]; [discriminate H | reflexivity].
  - simpl. destruct (Ascii.eqb_spec a "*") as [-> |]; [|reflexivity].
    destruct (Ascii.eqb_spec b "*") as [-> |]; [|reflexivity].
    destruct (Ascii.eqb_spec c "*") as [-> |]; [|reflexivity].
    exfalso. unfold tail_safe in H. apply andb_true_iff in H. destruct H as [_ H].
    simpl in H. discriminate H.
Qed.

Lemma scan_step (c : ascii) (s : str) :
  scan (c :: s)
  = if starts_with key (c :: s)
    then "*"%char :: "*"%char :: "*"%char :: scan (skipn (List.length key') s)
    else c :: scan s.
Proof. exact (@replace_scan_step o key' "*"%char (lit "**") c s). Qed.

Lemma replace_scan_prefix_safe (s p : str) :
  tail_safe p = true ->
  starts_with p (scan s) = true ->
  starts_with p s = true.
Proof.
  revert p. induction s as [|c s IH]; intros p Hp H; [exact H|].
  destruct p as [|a p]; [reflexivity|].
  rewrite scan_step in H.
  destruct (starts_with key (c :: s)).
  -     rewrite tail_safe_not_mask in H; [discriminate H | discriminate | exact Hp].
  - simpl in H. apply andb_true_iff in H. destruct H as [Ha Hr].
    simpl. rewrite Ha. simpl. apply IH; [|exact Hr].
    exact (tail_safe_tail a p Hp).
Qed.

Hypothesis key_safe : mask_safe key = true.

Lemma mask_safe_head : Ascii.eqb o "*" = false.
Proof.
  unfold mask_safe, key in key_safe.
  apply andb_true_iff in key_safe. destruct key_safe as [H _].
  apply andb_true_iff in H. destruct H as [H _].
  simpl in H. destruct (Ascii.eqb_spec o "*") as [-> |]; [discriminate H | reflexivity].
Qed.

Lemma mask_safe_tail : tail_safe key' = true.
Proof.
  apply (tail_safe_tail o). unfold mask_safe, key in key_safe. unfold tail_safe.
  apply andb_true_iff in key_safe. destruct key_safe as [H H3].
  apply andb_true_iff in H. destruct H as [_ H2].
  rewrite H2, H3. reflexivity.
Qed.

Lemma str_in_after_stars (t : str) :
  str_in key t = false ->
  str_in key ("*"%char :: "*"%char :: "*"%char :: t) = false.
Proof.
  intros Ht. unfold key. simpl. rewrite mask_safe_head. simpl.
  exact Ht.
Qed.

Lemma replace_scan_safe_upto (n : nat) :
  forall s, List.length s <= n -> str_in key (scan s) = false.
Proof.
  induction n as [|n IH]; intros s Hlen.
  - destruct s; [reflexivity | simpl in Hlen; lia].
  - destruct s as [|c s]; [reflexivity|].
    simpl in Hlen. rewrite scan_step.
    destruct (starts_with key (c :: s)) eqn:Hsw.
    + apply str_in_after_stars. apply IH. rewrite length_skipn. lia.
    + change (starts_with key (c :: scan s) || str_in key (scan s) = false).
      rewrite (IH s) by lia. rewrite orb_false_r.
      destruct (starts_with key (c :: scan s)) eqn:Hout; [|reflexivity].
      unfold key in Hout. simpl in Hout, Hsw.
      apply andb_true_iff in Hout. destruct Hout as [Hoc Hrest].
      rewrite Hoc in Hsw. simpl in Hsw.
      rewrite (replace_scan_prefix_safe s key' mask_safe_tail Hrest) in Hsw.
      discriminate Hsw.
Qed.

(** After replacement by [***] no occurrence of a safe credential is
    left. *)
Lemma replace_scan_safe (s : str) : str_in key (scan s) = false.
Proof. apply (replace_scan_safe_upto (n := List.length s)). lia. Qed.

End MaskSafe.

Lemma starts_with_star_cons (a : ascii) (l : str) :
  starts_with (lit "*") (a :: l) = Ascii.eqb "*" a.
Proof.
  change (starts_with (lit "*") (a :: l)) with (Ascii.eqb "*" a && true).
  apply andb_true_r.
Qed.

Lemma mask_safe_without_star (key : str) :
  ~ In "*"%char key -> mask_safe key = true.
Proof.
  intros H.
  unfold mask_safe. apply andb_true_iff. split; [apply andb_true_iff; split|].
  - destruct key as [|a key]; [reflexivity|]. rewrite starts_with_star_cons.
    destruct (Ascii.eqb_spec "*" a) as [<- |]; [|reflexivity].
    exfalso. apply H. left. reflexivity.
  - destruct (rev key) as [|a r] eqn:Hr; [reflexivity|].
    rewrite starts_with_star_cons.
    destruct (Ascii.eqb_spec "*" a) as [<- |]; [|reflexivity].
    exfalso. apply H. apply in_rev. rewrite Hr. left. reflexivity.
  - apply negb_true_iff. destruct (str_in (lit "***") key) eqn:Hin; [|reflexivity].
    apply str_in_iff in Hin. destruct Hin as [pre [post ->]].
    exfalso. apply H. apply in_or_app. right. left. reflexivity.
Qed.

(* ================================================================== *)
(** * The secret redactor *)
(* ================================================================== *)

Section Redactor.

Variable E : environ.

(** With a credential configured, [redact] is the left-to-right scan. *)
Lemma redact_configured (key msg : str) :
  environ_get E (lit "OPENAI_API_KEY") = Some key ->
  key <> [] ->
  redact E msg = replace_scan key (lit "***") 0 msg.
Proof.
  intros Hk Hne. unfold redact, env. rewrite Hk.
  destruct key as [|c key]; [congruence | reflexivity].
Qed.

(** With none, [msg.replace("", "***")] runs: the mask goes in front of
    every character and at the end. *)
Lemma redact_unconfigured (msg : str) :
  environ_get E (lit "OPENAI_API_KEY") = None
  \/ environ_get E (lit "OPENAI_API_KEY") = Some [] ->
  redact E msg = lit "***" ++ flat_map (fun c => c :: lit "***") msg.
Proof.
  intros [Hk | Hk]; unfold redact, env; rewrite Hk; reflexivity.
Qed.

End Redactor.

Lemma redact_clean (E : environ) (key msg : str) :
  environ_get E (lit "OPENAI_API_KEY") = Some key ->
  key <> [] ->
  ~ In "*"%char key ->
  str_in key (redact E msg) = false.
Proof.
  intros Hk Hne Hstar.
  rewrite (redact_configured E msg Hk Hne).
  destruct key as [|o key']; [congruence|].
  apply (@replace_scan_clean o key' "*"%char (lit "**")).
  intros c Hc Hin. simpl in Hc.
  assert (c = "*"%char) by intuition congruence.
  subst c. exact (Hstar Hin).
Qed.

Lemma redact_absent (E : environ) (key msg : str) :
  environ_get E (lit "OPENAI_API_KEY") = Some key ->
  key <> [] ->
  str_in key msg = false ->
  redact E msg = msg.
Proof.
  intros Hk Hne. rewrite (redact_configured E msg Hk Hne).
  destruct key as [|o key']; [congruence|].
  apply (@replace_scan_absent o key' "*"%char (lit "**")).
Qed.

Lemma redact_safe (E : environ) (key msg : str) :
  environ_get E (lit "OPENAI_API_KEY") = Some key ->
  key <> [] ->
  mask_safe key = true ->
  str_in key (redact E msg) = false.
Proof.
  intros Hk Hne Hsafe.
  rewrite (redact_configured E msg Hk Hne).
  destruct key as [|o key']; [congruence|].
  exact (@replace_scan_safe o key' Hsafe msg).
Qed.

(** The scan of [redact], one step at a time: at an occurrence of the
    credential the mask is written and the scan resumes after the
    occurrence; any other character is copied. *)
Lemma redact_steps (E : environ) (key : str) :
  environ_get E (lit "OPENAI_API_KEY") = Some key ->
  key <> [] ->
  redact E [] = []
  /\ (forall rest, redact E (key ++ rest) = lit "***" ++ redact E rest)
  /\ (forall c rest,
        starts_with key (c :: rest) = false ->
        redact E (c :: rest) = c :: redact E rest).
Proof.
  intros Hk Hne.
  assert (Hr : forall m, redact E m = replace_scan key (lit "***") 0 m)
    by (intros m; exact (redact_configured E m Hk Hne)).
  destruct key as [|o key']; [congruence|].
  assert (Hstep : forall c s,
             replace_scan (o :: key') (lit "***") 0 (c :: s)
             = if starts_with (o :: key') (c :: s)
               then lit "***"
                      ++ replace_scan (o :: key') (lit "***") 0
                                      (skipn (List.length key') s)
               else c :: replace_scan (o :: key') (lit "***") 0 s)
    by (intros c s; exact (@replace_scan_step o key' "*"%char (lit "**") c s)).
  split; [|split].
  - rewrite Hr. reflexivity.
  - intros rest. rewrite !Hr.
    change ((o :: key') ++ rest) with (o :: (key' ++ rest)).
    rewrite Hstep.
    change (o :: key' ++ rest) with ((o :: key') ++ rest).
    rewrite starts_with_app, skipn_app, skipn_all, Nat.sub_diag.
    reflexivity.
  - intros c rest Hsw. rewrite !Hr, Hstep, Hsw. reflexivity.
Qed.

(** C1, as amended.  With a configured, non-empty credential, [redact]
    scans the message from the left: at each occurrence of the credential
    it writes the fixed mask [***] and resumes after the occurrence, and it
    copies every other character; so a message that does not hold the
    credential comes back unchanged.  When the credential neither starts
    nor ends with [*] and holds no [***], the result has no occurrence of
    the credential. *)
Theorem redact_removes_credential (E : environ) (key : str) :
  environ_get E (lit "OPENAI_API_KEY") = Some key ->
  key <> [] ->
  redact E [] = []
  /\ (forall rest, redact E (key ++ rest) = lit "***" ++ redact E rest)
  /\ (forall c rest,
        starts_with key (c :: rest) = false ->
        redact E (c :: rest) = c :: redact E rest)
  /\ (forall msg, str_in key msg = false -> redact E msg = msg)
  /\ (mask_safe key = true -> forall msg, str_in key (redact E msg) = false).
Proof.
  intros Hk Hne.
  destruct (redact_steps E Hk Hne) as [H1 [H2 H3]].
  split; [exact H1|]. split; [exact H2|]. split; [exact H3|]. split.
  - intros msg. exact (redact_absent E msg Hk Hne).
  - intros Hsafe msg. exact (redact_safe E msg Hk Hne Hsafe).
Qed.

Lemma redact_removes_credential_witness :
  redact [(lit "OPENAI_API_KEY", lit "sk*7")] (lit "sk*7 refused")
  = lit "***" ++ redact [(lit "OPENAI_API_KEY", lit "sk*7")] (lit " refused")
  /\ redact [(lit "OPENAI_API_KEY", lit "sk*7")] (lit "no key here") = lit "no key here"
  /\ str_in (lit "sk*7")
            (redact [(lit "OPENAI_API_KEY", lit "sk*7")]
                    (lit "401: key sk*7 rejected (sksk*7*7)")) = false
  /\ redact [(lit "OPENAI_API_KEY", lit "sk*7")] (lit "401: key sk*7 rejected (sksk*7*7)")
     = lit "401: key *** rejected (sk****7)".
Proof.
  destruct (@redact_removes_credential
              [(lit "OPENAI_API_KEY", lit "sk*7")] (lit "sk*7") eq_refl)
    as [_ [Hocc [_ [Habsent Hclean]]]]; [discriminate|].
  split; [exact (Hocc (lit " refused"))|].
  split; [exact (Habsent (lit "no key here") eq_refl)|].
  split; [exact (Hclean eq_refl (lit "401: key sk*7 rejected (sksk*7*7)"))|].
  reflexivity.
Defined.

(** C1 as stated fails.  A credential that ends with [*], starts with [*]
    or holds [***] can be rebuilt by the mask ([a*] in [aa*], [*a] in
    [*aa], [a***b] in [aa***bb]); and with no credential configured, unset
    or empty, the message is not returned unchanged. *)
Lemma redact_claim_counterexample :
  (str_in (lit "a*") (lit "aa*") = true
   /\ redact [(lit "OPENAI_API_KEY", lit "a*")] (lit "aa*") = lit "a***"
   /\ str_in (lit "a*") (redact [(lit "OPENAI_API_KEY", lit "a*")] (lit "aa*")) = true)
  /\ (redact [(lit "OPENAI_API_KEY", lit "*a")] (lit "*aa") = lit "***a"
      /\ str_in (lit "*a") (lit "***a") = true)
  /\ (redact [(lit "OPENAI_API_KEY", lit "a***b")] (lit "aa***bb") = lit "a***b"
      /\ str_in (lit "a***b") (lit "a***b") = true)
  /\ redact [] (lit "abc") = lit "***a***b***c***"
  /\ redact [(lit "OPENAI_API_KEY", lit "")] (lit "abc") = lit "***a***b***c***"
  /\ redact [] (lit "abc") <> lit "abc".
Proof.
  repeat split; try reflexivity. discriminate.
Qed.

(* ================================================================== *)
(** * The provider selector *)
(* ================================================================== *)

Lemma pick_provider_openai_iff (E : environ) (p : option str) :
  pick_provider E p = lit "openai"
  <-> strip (lower (opt_or p (env_str E (lit "PROVIDER") (lit "ollama"))))
      = lit "openai".
Proof.
  unfold pick_provider.
  destruct (str_eqb _ (lit "openai")) eqn:Heq.
  - apply str_eqb_eq in Heq. split; intros _; [exact Heq | reflexivity].
  - split; [discriminate|]. intros H. apply str_eqb_eq in H. congruence.
Qed.

(** C2, as amended.  The value the selector normalizes (lower-cased, then
    trimmed) is the request's provider field when that is a non-empty
    string, and the configured [PROVIDER] (default [ollama]) otherwise.  The
    selector returns [openai] exactly when that value normalizes to
    [openai], and [ollama] for everything else; with the field unset and no
    [PROVIDER] configured it returns [ollama]. *)
Theorem pick_provider_correct (E : environ) :
  (forall s, s <> [] ->
     (pick_provider E (Some s) = lit "openai" <-> strip (lower s) = lit "openai"))
  /\ (forall p, p = None \/ p = Some [] ->
        (pick_provider E p = lit "openai"
         <-> strip (lower (env_str E (lit "PROVIDER") (lit "ollama"))) = lit "openai"))
  /\ (forall p, pick_provider E p = lit "openai" \/ pick_provider E p = lit "ollama")
  /\ (environ_get E (lit "PROVIDER") = None -> pick_provider E None = lit "ollama").
Proof.
  split; [|split; [|split]].
  - intros s Hs. rewrite pick_provider_openai_iff.
    destruct s; [congruence | reflexivity].
  - intros p Hp. rewrite pick_provider_openai_iff.
    destruct Hp as [-> | ->]; reflexivity.
  - intros p. unfold pick_provider.
    destruct (str_eqb _ (lit "openai")); [left | right]; reflexivity.
  - intros H. unfold pick_provider, env_str. rewrite H. reflexivity.
Qed.

(** C2 as stated fails where the process is configured with
    [PROVIDER=openai]: a request with the provider field unset is then
    routed to the hosted provider. *)
Lemma pick_provider_unset_counterexample :
  pick_provider [(lit "PROVIDER", lit "openai")] None = lit "openai"
  /\ pick_provider [(lit "PROVIDER", lit " OpenAI ")] (Some (lit "")) = lit "openai"
  /\ lit "openai" <> lit "ollama".
Proof. repeat split; try reflexivity. discriminate. Qed.

Example pick_provider_spellings :
  pick_provider [] (Some (lit "  OpenAI ")) = lit "openai"
  /\ pick_provider [] (Some (lit "open ai")) = lit "ollama"
  /\ pick_provider [(lit "PROVIDER", lit "openai")] (Some (lit "ollama")) = lit "ollama"
  /\ pick_provider [(lit "PROVIDER", lit "openai")] (Some (lit "  ")) = lit "ollama".
Proof. repeat split; reflexivity. Qed.

(* ================================================================== *)
(** * The response normalizer *)
(* ================================================================== *)

Lemma normalize_html_verbatim (x : str) :
  str_in (lit "<html") (lower x) = true -> normalize_html x = x.
Proof. intros H. unfold normalize_html. rewrite H. reflexivity. Qed.

Lemma normalize_html_wrapped (x : str) :
  str_in (lit "<html") (lower x) = false ->
  normalize_html x
  = lit "<!doctype html><html><body><pre>" ++ x ++ lit "</pre></body></html>".
Proof. intros H. unfold normalize_html. rewrite H. reflexivity. Qed.

Lemma normalize_html_nonempty (x : str) : normalize_html x <> [].
Proof.
  unfold normalize_html. destruct (str_in (lit "<html") (lower x)) eqn:H.
  - intros ->. discriminate H.
  - discriminate.
Qed.

(** The result of normalization always carries the root marker. *)
Lemma normalize_html_has_root (x : str) :
  str_in (lit "<html") (lower (normalize_html x)) = true.
Proof.
  unfold normalize_html. destruct (str_in (lit "<html") (lower x)) eqn:H.
  - exact H.
  - rewrite lower_app.
    change (lower (lit "<!doctype html><html><body><pre>"))
      with (lit "<!doctype html>" ++ lit "<html" ++ lit "><body><pre>").
    rewrite <- !app_assoc. apply str_in_app_intro.
Qed.

Lemma normalize_html_idem (x : str) :
  normalize_html (normalize_html x) = normalize_html x.
Proof. apply normalize_html_verbatim, normalize_html_has_root. Qed.

Lemma normalize_fields (x : str) :
  py_get (normalize x) (lit "html") PNone = Return (PStr (normalize_html x))
  /\ py_get (normalize x) (lit "content") PNone = Return (PStr (lit "Preview updated."))
  /\ py_get (normalize x) (lit "messages") (PStr (lit "absent")) = Return PNone.
Proof. repeat split. Qed.

Lemma normalize_value_inv (v r : pyval) :
  normalize_value v = Return r -> exists s, v = PStr s /\ r = normalize s.
Proof.
  destruct v; simpl; try discriminate.
  intros H. injection H as <-. exists s. split; reflexivity.
Qed.

(** C9.  On a text that holds the root marker [<html] in any letter case,
    the normalizer uses the text verbatim as the [html] field, so
    normalizing that field again gives the same result. *)
Theorem normalize_idempotent_on_html (x : str) :
  str_in (lit "<html") (lower x) = true ->
  exists h,
    py_get (normalize x) (lit "html") PNone = Return (PStr h)
    /\ h = x
    /\ normalize h = normalize x.
Proof.
  intros H. exists (normalize_html x).
  split; [reflexivity|].
  rewrite (normalize_html_verbatim x H). split; reflexivity.
Qed.

Lemma normalize_idempotent_on_html_witness :
  exists h,
    py_get (normalize (lit "<HTML><body>Hi</body></HTML>")) (lit "html") PNone
    = Return (PStr h)
    /\ h = lit "<HTML><body>Hi</body></HTML>"
    /\ normalize h = normalize (lit "<HTML><body>Hi</body></HTML>").
Proof.
  apply (@normalize_idempotent_on_html (lit "<HTML><body>Hi</body></HTML>")).
  reflexivity.
Defined.

Example normalize_wraps_plain_text :
  normalize_html (lit "hello")
  = lit "<!doctype html><html><body><pre>hello</pre></body></html>"
  /\ normalize_html (lit "")
     = lit "<!doctype html><html><body><pre></pre></body></html>".
Proof. split; reflexivity. Qed.

(* ================================================================== *)
(** * Reading the hosted backend's answer *)
(* ================================================================== *)

(** A key missing on the path choices, message, content gives the empty
    string: a body without [choices], a first choice without [message], a
    message without [content].  A [content] that is there is returned as
    [content or ""]: the empty string for [null], the text itself for a
    non-empty string. *)
Theorem extract_content_missing_fields :
  (forall d, assoc (lit "choices") d = None ->
     extract_content (PDict d) = Return (PStr (lit "")))
  /\ (forall d first rest,
        assoc (lit "choices") d = Some (PList (PDict first :: rest)) ->
        assoc (lit "message") first = None ->
        extract_content (PDict d) = Return (PStr (lit "")))
  /\ (forall d first rest msg,
        assoc (lit "choices") d = Some (PList (PDict first :: rest)) ->
        assoc (lit "message") first = Some (PDict msg) ->
        assoc (lit "content") msg = None ->
        extract_content (PDict d) = Return (PStr (lit "")))
  /\ (forall d first rest msg c,
        assoc (lit "choices") d = Some (PList (PDict first :: rest)) ->
        assoc (lit "message") first = Some (PDict msg) ->
        assoc (lit "content") msg = Some c ->
        extract_content (PDict d) = Return (py_or c (PStr (lit ""))))
  /\ py_or PNone (PStr (lit "")) = PStr (lit "")
  /\ (forall a s, py_or (PStr (a :: s)) (PStr (lit "")) = PStr (a :: s)).
Proof.
  unfold extract_content. repeat split.
  - intros d H. cbn [py_get obind]. rewrite H. reflexivity.
  - intros d first rest H1 H2. cbn [py_get obind]. rewrite H1.
    cbn [py_get py_item0 obind]. rewrite H2. reflexivity.
  - intros d first rest msg H1 H2 H3. cbn [py_get obind]. rewrite H1.
    cbn [py_get py_item0 obind]. rewrite H2.
    cbn [py_get obind]. rewrite H3. reflexivity.
  - intros d first rest msg c H1 H2 H3. cbn [py_get obind]. rewrite H1.
    cbn [py_get py_item0 obind]. rewrite H2.
    cbn [py_get obind]. rewrite H3. reflexivity.
Qed.

(** Bodies of another shape make line 99 raise: a [choices] that is an
    empty list or [null], a [message] that is [null], a body that is not an
    object. *)
Lemma extract_content_counterexample :
  extract_content (PDict [(lit "choices", PList [])])
  = Raise (Exn IndexError (lit "list index out of range"))
  /\ extract_content (PDict [(lit "choices", PNone)])
     = Raise (Exn TypeError (lit "'NoneType' object is not subscriptable"))
  /\ extract_content (PDict [(lit "choices", PList [PDict [(lit "message", PNone)]])])
     = Raise (Exn AttributeError (lit "'NoneType' object has no attribute 'get'"))
  /\ extract_content (PList [])
     = Raise (Exn AttributeError (lit "'list' object has no attribute 'get'")).
Proof. repeat split. Qed.

(* ================================================================== *)
(** * Effects: what a computation appends to the trace *)
(* ================================================================== *)

Section Emits.

Context {A B : Type}.
Variable net : network.

Lemma emits_run (m : io A) (d : trace) (o : outcome A) :
  emits m net d o -> run m net = (d, o).
Proof. intros H. unfold run. rewrite (H []). reflexivity. Qed.

Lemma emits_fun (m : io A) (d d' : trace) (o o' : outcome A) :
  emits m net d o -> emits m net d' o' -> d = d' /\ o = o'.
Proof.
  intros H H'. specialize (H []). rewrite (H' []) in H.
  injection H as H1 H2. split; congruence.
Qed.

Lemma emits_ret (a : A) : emits (ret a) net [] (Return a).
Proof. intros t0. unfold ret. rewrite app_nil_r. reflexivity. Qed.

Lemma emits_raise (e : exn) : emits (@raise A e) net [] (Raise e).
Proof. intros t0. unfold raise. rewrite app_nil_r. reflexivity. Qed.

Lemma emits_lift (o : outcome A) : emits (lift o) net [] o.
Proof. intros t0. unfold lift. rewrite app_nil_r. reflexivity. Qed.

Lemma emits_bind_return (m : io A) (k : A -> io B) d1 d2 a o :
  emits m net d1 (Return a) -> emits (k a) net d2 o ->
  emits (bind m k) net (d1 ++ d2) o.
Proof.
  intros H1 H2 t0. unfold bind. rewrite (H1 t0), (H2 (t0 ++ d1)), app_assoc.
  reflexivity.
Qed.

Lemma emits_bind_raise (m : io A) (k : A -> io B) d e :
  emits m net d (Raise e) -> emits (bind m k) net d (Raise e).
Proof. intros H t0. unfold bind. rewrite (H t0). reflexivity. Qed.

Lemma emits_try_return (m : io A) (h : exn -> io A) d a :
  emits m net d (Return a) -> emits (try_except m h) net d (Return a).
Proof. intros H t0. unfold try_except. rewrite (H t0). reflexivity. Qed.

Lemma emits_try_raise (m : io A) (h : exn -> io A) d1 d2 e o :
  emits m net d1 (Raise e) -> emits (h e) net d2 o ->
  emits (try_except m h) net (d1 ++ d2) o.
Proof.
  intros H1 H2 t0. unfold try_except. rewrite (H1 t0), (H2 (t0 ++ d1)), app_assoc.
  reflexivity.
Qed.

End Emits.

Lemma emits_post (net : network) (rq : http_request) :
  emits (post rq) net [Posted rq] (net rq).
Proof. intros t0. reflexivity. Qed.

Lemma emits_yield (net : network) (f : bytes) :
  emits (yield f) net [Yielded f] (Return tt).
Proof. intros t0. reflexivity. Qed.

Lemma frames_app (t1 t2 : trace) : frames (t1 ++ t2) = frames t1 ++ frames t2.
Proof. apply flat_map_app. Qed.

Lemma posts_app (t1 t2 : trace) : posts (t1 ++ t2) = posts t1 ++ posts t2.
Proof. apply flat_map_app. Qed.

(* ================================================================== *)
(** * The provider adapters *)
(* ================================================================== *)

Section Adapters.

Variable E : environ.
Variable net : network.

Lemma adapter_run_post_raise (rq : http_request) (e : exn) :
  adapter_run [Posted rq] (Raise e).
Proof. repeat split; simpl; try lia. discriminate. Qed.

Lemma adapter_run_post_value (rq : http_request) (v : pyval) (o : outcome pyval) :
  normalize_value v = o -> adapter_run [Posted rq] o.
Proof.
  intros H. repeat split; simpl; try lia.
  intros r ->. apply normalize_value_inv in H. destruct H as [s [_ ->]].
  exists s. reflexivity.
Qed.

Lemma ollama_adapter_emits (prompt : str) (model base_url : option str) :
  exists d o,
    emits (ollama_adapter E prompt model base_url) net d o /\ adapter_run d o.
Proof.
  unfold ollama_adapter.
  match goal with |- context [post ?r] => set (rq := r) end.
  exists [Posted rq].
  destruct (net rq) as [r | e] eqn:Hnet.
  2:{ exists (Raise e). split; [|apply adapter_run_post_raise].
      eapply emits_bind_raise. rewrite <- Hnet. apply emits_post. }
  assert (Hpost : emits (post rq) net [Posted rq] (Return r))
    by (rewrite <- Hnet; apply emits_post).
  destruct (negb (status_code r =? 200)%Z) eqn:Hst.
  { eexists. split; [|apply adapter_run_post_raise].
    rewrite <- (app_nil_r [Posted rq]).
    eapply emits_bind_return; [exact Hpost|]. rewrite Hst. apply emits_raise. }
  destruct (json r) as [data | e] eqn:Hjson.
  2:{ exists (Raise e). split; [|apply adapter_run_post_raise].
      rewrite <- (app_nil_r [Posted rq]).
      eapply emits_bind_return; [exact Hpost|]. rewrite Hst, Hjson.
      apply emits_bind_raise, emits_lift. }
  destruct (py_get data (lit "response") (PStr (lit ""))) as [v | e] eqn:Hget.
  2:{ exists (Raise e). split; [|apply adapter_run_post_raise].
      rewrite <- (app_nil_r [Posted rq]).
      eapply emits_bind_return; [exact Hpost|]. rewrite Hst, Hjson.
      rewrite <- (app_nil_r []).
      eapply emits_bind_return; [apply emits_lift|]. rewrite Hget.
      apply emits_bind_raise, emits_lift. }
  exists (normalize_value v). split; [|apply (adapter_run_post_value rq v eq_refl)].
  rewrite <- (app_nil_r [Posted rq]).
  eapply emits_bind_return; [exact Hpost|]. rewrite Hst, Hjson.
  rewrite <- (app_nil_r []).
  eapply emits_bind_return; [apply emits_lift|]. rewrite Hget.
  rewrite <- (app_nil_r []).
  eapply emits_bind_return; [apply emits_lift|]. apply emits_lift.
Qed.

(** Without a credential the hosted adapter raises before any POST. *)
Lemma openai_adapter_no_key (prompt : str) (model api_key : option str) :
  resolved_key E api_key = None ->
  emits (openai_adapter E prompt model api_key) net []
        (Raise (Exn RuntimeError (lit "Missing OpenAI API key"))).
Proof.
  unfold resolved_key, openai_adapter, env. intros H.
  destruct api_key as [[|c k]|];
    try discriminate;
    destruct (environ_get E (lit "OPENAI_API_KEY")) as [[|c' k']|];
    try discriminate; apply emits_raise.
Qed.

Lemma openai_adapter_emits (prompt : str) (model api_key : option str) :
  exists d o,
    emits (openai_adapter E prompt model api_key) net d o /\ adapter_run d o.
Proof.
  destruct (resolved_key E api_key) as [key|] eqn:Hkey.
  2:{ exists [], (Raise (Exn RuntimeError (lit "Missing OpenAI API key"))).
      split; [apply openai_adapter_no_key; exact Hkey|].
      repeat split; simpl; try lia. discriminate. }
  assert (Hk : exists c k,
             match api_key with
             | Some ((_ :: _) as k) => Some k
             | _ => env E (lit "OPENAI_API_KEY") None
             end = Some (c :: k)).
  { unfold resolved_key, env in *.
    destruct api_key as [[|c k]|]; try (exists c, k; reflexivity);
      destruct (environ_get E (lit "OPENAI_API_KEY")) as [[|c' k']|];
      try discriminate; exists c', k'; reflexivity. }
  destruct Hk as [c [k Hk]].
  unfold openai_adapter. rewrite Hk.
  match goal with |- context [post ?r] => set (rq := r) end.
  exists [Posted rq].
  destruct (net rq) as [r | e] eqn:Hnet.
  2:{ exists (Raise e). split; [|apply adapter_run_post_raise].
      eapply emits_bind_raise. rewrite <- Hnet. apply emits_post. }
  assert (Hpost : emits (post rq) net [Posted rq] (Return r))
    by (rewrite <- Hnet; apply emits_post).
  destruct (negb (status_code r =? 200)%Z) eqn:Hst.
  { eexists. split; [|apply adapter_run_post_raise].
    rewrite <- (app_nil_r [Posted rq]).
    eapply emits_bind_return; [exact Hpost|]. rewrite Hst. apply emits_raise. }
  destruct (json r) as [data | e] eqn:Hjson.
  2:{ exists (Raise e). split; [|apply adapter_run_post_raise].
      rewrite <- (app_nil_r [Posted rq]).
      eapply emits_bind_return; [exact Hpost|]. rewrite Hst, Hjson.
      apply emits_bind_raise, emits_lift. }
  destruct (extract_content data) as [v | e] eqn:Hget.
  2:{ exists (Raise e). split; [|apply adapter_run_post_raise].
      rewrite <- (app_nil_r [Posted rq]).
      eapply emits_bind_return; [exact Hpost|]. rewrite Hst, Hjson.
      rewrite <- (app_nil_r []).
      eapply emits_bind_return; [apply emits_lift|]. rewrite Hget.
      apply emits_bind_raise, emits_lift. }
  exists (normalize_value v). split; [|apply (adapter_run_post_value rq v eq_refl)].
  rewrite <- (app_nil_r [Posted rq]).
  eapply emits_bind_return; [exact Hpost|]. rewrite Hst, Hjson.
  rewrite <- (app_nil_r []).
  eapply emits_bind_return; [apply emits_lift|]. rewrite Hget.
  rewrite <- (app_nil_r []).
  eapply emits_bind_return; [apply emits_lift|]. apply emits_lift.
Qed.

End Adapters.

(* ================================================================== *)
(** * The handler *)
(* ================================================================== *)

Section HandlerFacts.

Variable json_dumps : pyval -> str.
Variable status_payload : str.
Variable render_error : pyval -> option exn.
Variable E : environ.
Variable net : network.

Lemma chosen_adapter_emits (provider prompt : str)
    (model x_ollama_base x_openai_key : option str) :
  exists d o,
    emits (chosen_adapter E provider prompt model x_ollama_base x_openai_key) net d o
    /\ adapter_run d o.
Proof.
  unfold chosen_adapter. destruct (str_eqb provider (lit "openai")).
  - apply openai_adapter_emits.
  - apply ollama_adapter_emits.
Qed.

(** [_do_call] passes a result on and turns a failure into a
    [RuntimeError] with the redacted, truncated text. *)
Lemma do_call_emits (provider prompt : str)
    (model x_ollama_base x_openai_key : option str) (d : trace) (o : outcome pyval) :
  emits (chosen_adapter E provider prompt model x_ollama_base x_openai_key) net d o ->
  emits (_do_call E provider prompt model x_ollama_base x_openai_key) net d (surface E o).
Proof.
  intros H. unfold _do_call. fold (chosen_adapter E provider prompt model x_ollama_base x_openai_key).
  destruct o as [v | e]; simpl.
  - apply emits_try_return. exact H.
  - rewrite <- (app_nil_r d). eapply emits_try_raise; [exact H|]. apply emits_raise.
Qed.

Lemma sse_stream_emits (provider prompt : str)
    (model x_ollama_base x_openai_key : option str) (d : trace) (o : outcome pyval) :
  emits (chosen_adapter E provider prompt model x_ollama_base x_openai_key) net d o ->
  adapter_run d o ->
  emits (sse_stream json_dumps status_payload E provider prompt model
                    x_ollama_base x_openai_key) net
        (Yielded (chunk_frame status_payload)
           :: d ++ [Yielded (terminal_frame json_dumps E o)])
        (Return tt).
Proof.
  intros Hd [_ [_ Hv]]. apply do_call_emits in Hd.
  unfold sse_stream.
  change (Yielded (chunk_frame status_payload)
            :: d ++ [Yielded (terminal_frame json_dumps E o)])
    with ([Yielded (chunk_frame status_payload)]
            ++ (d ++ [Yielded (terminal_frame json_dumps E o)])).
  eapply emits_bind_return; [apply emits_yield|].
  destruct o as [v | e]; simpl in Hd.
  - destruct (Hv v eq_refl) as [text ->].
    apply emits_try_return.
    eapply emits_bind_return; [exact Hd|].
    intros t0. reflexivity.
  - eapply emits_try_raise; [apply emits_bind_raise; exact Hd|].
    apply emits_yield.
Qed.

Lemma str_or_empty (x : str) : str_or x (lit "") = x.
Proof. destruct x; reflexivity. Qed.

Variable request : Request.
Variable body : GenerateBody.
Variables x_ollama_base x_openai_key : option str.

(** An all-whitespace prompt is answered at once. *)
Lemma generate_blank :
  forallb is_space (prompt body) = true ->
  generate json_dumps status_payload render_error E request body x_ollama_base x_openai_key
  = ret missing_prompt.
Proof.
  intros H. apply strip_nil_iff in H. unfold generate.
  rewrite str_or_empty, H. reflexivity.
Qed.

Lemma strip_not_blank :
  forallb is_space (prompt body) = false ->
  exists c p, strip (prompt body) = c :: p.
Proof.
  intros H. destruct (strip (prompt body)) as [|c p] eqn:Hs.
  - apply strip_nil_iff in Hs. congruence.
  - exists c, p. reflexivity.
Qed.

Lemma generate_streaming :
  forallb is_space (prompt body) = false ->
  want_sse request = true ->
  generate json_dumps status_payload render_error E request body x_ollama_base x_openai_key
  = ret (StreamingResponse
           (sse_stream json_dumps status_payload E
              (pick_provider E (provider body)) (strip (prompt body))
              (model_of body) x_ollama_base x_openai_key)
           (lit "text/event-stream")).
Proof.
  intros Hb Hs. destruct (strip_not_blank Hb) as [c [p Hp]].
  unfold generate. rewrite str_or_empty, Hp, Hs. reflexivity.
Qed.

Lemma generate_buffered (d : trace) (o : outcome pyval) :
  forallb is_space (prompt body) = false ->
  want_sse request = false ->
  emits (adapter_of E body x_ollama_base x_openai_key) net d o ->
  emits (generate json_dumps status_payload render_error E request body x_ollama_base x_openai_key)
        net d (Return (buffered_reply render_error E o)).
Proof.
  intros Hb Hs Hd. destruct (strip_not_blank Hb) as [c [p Hp]].
  unfold adapter_of in Hd. apply do_call_emits in Hd.
  unfold generate. rewrite str_or_empty, Hs. rewrite Hp in *.
  fold (model_of body).
  destruct o as [v | e]; simpl in Hd |- *.
  - destruct (render_error v) as [e' |] eqn:Hr.
    + rewrite <- (app_nil_r d).
      eapply emits_try_raise; [|apply emits_ret].
      rewrite <- (app_nil_r d).
      eapply emits_bind_return; [exact Hd|].
      unfold json_response. rewrite Hr. apply emits_raise.
    + apply emits_try_return. rewrite <- (app_nil_r d).
      eapply emits_bind_return; [exact Hd|].
      unfold json_response. rewrite Hr. apply emits_ret.
  - rewrite <- (app_nil_r d).
    eapply emits_try_raise; [apply emits_bind_raise; exact Hd | apply emits_ret].
Qed.

(** The three ways a request is served. *)
Lemma serve_blank :
  forallb is_space (prompt body) = true ->
  emits (serve json_dumps status_payload render_error E request body x_ollama_base x_openai_key)
        net [] (Return missing_prompt).
Proof.
  intros H. unfold serve. rewrite (generate_blank H).
  intros t0. unfold bind, ret. rewrite app_nil_r. reflexivity.
Qed.

Lemma serve_buffered (d : trace) (o : outcome pyval) :
  forallb is_space (prompt body) = false ->
  want_sse request = false ->
  emits (adapter_of E body x_ollama_base x_openai_key) net d o ->
  emits (serve json_dumps status_payload render_error E request body x_ollama_base x_openai_key)
        net d (Return (buffered_reply render_error E o)).
Proof.
  intros Hb Hs Hd. unfold serve. rewrite <- (app_nil_r d).
  eapply emits_bind_return; [apply (generate_buffered Hb Hs Hd)|].
  destruct o as [v | e]; simpl; [destruct (render_error v)|]; apply emits_ret.
Qed.

Lemma serve_streaming (d : trace) (o : outcome pyval) :
  forallb is_space (prompt body) = false ->
  want_sse request = true ->
  emits (adapter_of E body x_ollama_base x_openai_key) net d o ->
  adapter_run d o ->
  exists stream,
    generate json_dumps status_payload render_error E request body x_ollama_base x_openai_key
    = ret (StreamingResponse stream (lit "text/event-stream"))
    /\ emits stream net
         (Yielded (chunk_frame status_payload)
            :: d ++ [Yielded (terminal_frame json_dumps E o)])
         (Return tt)
    /\ emits (serve json_dumps status_payload render_error E request body x_ollama_base x_openai_key)
         net
         (Yielded (chunk_frame status_payload)
            :: d ++ [Yielded (terminal_frame json_dumps E o)])
         (Return (StreamingResponse stream (lit "text/event-stream"))).
Proof.
  intros Hb Hs Hd Hrun. eexists. split; [apply (generate_streaming Hb Hs)|].
  assert (Hstream := @sse_stream_emits _ _ _ _ _ _ _ Hd Hrun).
  split; [exact Hstream|].
  unfold serve. rewrite (generate_streaming Hb Hs).
  intros t0. unfold bind at 1. unfold ret at 1.
  unfold bind. rewrite (Hstream t0). reflexivity.
Qed.

End HandlerFacts.

(* ================================================================== *)
(** * Delivery: frames and replies *)
(* ================================================================== *)

Lemma frame_event_chunk (payload : str) :
  frame_event (chunk_frame payload) = lit "chunk".
Proof. reflexivity. Qed.

Lemma frame_event_done (json_dumps : pyval -> str) (v : pyval) :
  frame_event (done_frame json_dumps v) = lit "done".
Proof. reflexivity. Qed.

Lemma frame_event_error (json_dumps : pyval -> str) (msg : str) :
  frame_event (error_frame json_dumps msg) = lit "error".
Proof. reflexivity. Qed.

Lemma surfaced_length (E : environ) (e : exn) : List.length (surfaced E e) <= 200.
Proof. apply slice_to_length. Qed.

Lemma surfaced_clean (E : environ) (e : exn) (key : str) :
  environ_get E (lit "OPENAI_API_KEY") = Some key ->
  key <> [] ->
  ~ In "*"%char key ->
  str_in key (surfaced E e) = false.
Proof.
  intros Hk Hne Hstar. apply str_in_slice_to.
  exact (redact_clean E (exn_str e) Hk Hne Hstar).
Qed.

Lemma surfaced_safe (E : environ) (e : exn) (key : str) :
  environ_get E (lit "OPENAI_API_KEY") = Some key ->
  key <> [] ->
  mask_safe key = true ->
  str_in key (surfaced E e) = false.
Proof.
  intros Hk Hne Hsafe. apply str_in_slice_to.
  exact (redact_safe E (exn_str e) Hk Hne Hsafe).
Qed.

Section Delivery.

Variable json_dumps : pyval -> str.
Variable status_payload : str.
Variable render_error : pyval -> option exn.
Variable E : environ.
Variable request : Request.
Variable body : GenerateBody.
Variables x_ollama_base x_openai_key : option str.
Variable net : network.

Let handler : io response :=
  generate json_dumps status_payload render_error E request body x_ollama_base x_openai_key.
Let server : io response :=
  serve json_dumps status_payload render_error E request body x_ollama_base x_openai_key.
Let adapter : io pyval := adapter_of E body x_ollama_base x_openai_key.

(** How a request is served, in every case. *)
Lemma serve_cases :
  (forallb is_space (prompt body) = true
   /\ run server net = ([], Return missing_prompt))
  \/ (forallb is_space (prompt body) = false /\ want_sse request = false
      /\ exists d o,
           run adapter net = (d, o) /\ adapter_run d o
           /\ run server net = (d, Return (buffered_reply render_error E o)))
  \/ (forallb is_space (prompt body) = false /\ want_sse request = true
      /\ exists d o stream,
           run adapter net = (d, o) /\ adapter_run d o
           /\ run handler net
              = ([], Return (StreamingResponse stream (lit "text/event-stream")))
           /\ run stream net
              = (Yielded (chunk_frame status_payload)
                   :: d ++ [Yielded (terminal_frame json_dumps E o)],
                 Return tt)
           /\ run server net
              = (Yielded (chunk_frame status_payload)
                   :: d ++ [Yielded (terminal_frame json_dumps E o)],
                 Return (StreamingResponse stream (lit "text/event-stream")))).
Proof.
  unfold handler, server, adapter.
  destruct (forallb is_space (prompt body)) eqn:Hb.
  - left. split; [reflexivity|]. apply emits_run, serve_blank. exact Hb.
  - right.
    destruct (chosen_adapter_emits E net (pick_provider E (provider body))
                (strip (prompt body)) (model_of body) x_ollama_base x_openai_key)
      as [d [o [Hd Hrun]]].
    fold (adapter_of E body x_ollama_base x_openai_key) in Hd.
    destruct (want_sse request) eqn:Hs.
    + right. split; [reflexivity|]. split; [reflexivity|].
      destruct (@serve_streaming json_dumps status_payload render_error E net request body
                  x_ollama_base x_openai_key d o Hb Hs Hd Hrun)
        as [stream [Hg [Hst Hsv]]].
      exists d, o, stream.
      split; [apply emits_run; exact Hd|]. split; [exact Hrun|].
      split; [rewrite Hg; reflexivity|].
      split; apply emits_run; assumption.
    + left. split; [reflexivity|]. split; [reflexivity|].
      exists d, o. split; [apply emits_run; exact Hd|]. split; [exact Hrun|].
      apply emits_run.
      apply (@serve_buffered json_dumps status_payload render_error E net request body
               x_ollama_base x_openai_key d o Hb Hs Hd).
Qed.

Lemma stream_frames (d : trace) (f1 f2 : bytes) :
  frames d = [] -> frames (Yielded f1 :: d ++ [Yielded f2]) = [f1; f2].
Proof.
  intros H. change (Yielded f1 :: d ++ [Yielded f2]) with ([Yielded f1] ++ d ++ [Yielded f2]).
  rewrite !frames_app, H. reflexivity.
Qed.

(** C3.  A request handled in streaming mode (a prompt that is not blank,
    an [Accept] header asking for SSE) gets a stream of exactly two frames:
    first the [chunk] frame, sent before the adapter is called, then one
    terminal frame, [done] when the adapter returned and [error] when it
    failed; then the generator ends. *)
Theorem sse_stream_two_events :
  forallb is_space (prompt body) = false ->
  want_sse request = true ->
  exists stream t terminal,
    run handler net
    = ([], Return (StreamingResponse stream (lit "text/event-stream")))
    /\ run stream net = (t, Return tt)
    /\ hd_error t = Some (Yielded (chunk_frame status_payload))
    /\ frames t = [chunk_frame status_payload; terminal]
    /\ map frame_event (frames t) = [lit "chunk"; frame_event terminal]
    /\ match snd (run adapter net) with
       | Return v =>
           terminal = done_frame json_dumps v /\ frame_event terminal = lit "done"
       | Raise e =>
           terminal = error_frame json_dumps (surfaced E e)
           /\ frame_event terminal = lit "error"
       end.
Proof.
  intros Hb Hs.
  destruct serve_cases as [[Hb' _] | [[_ [Hs' _]] | [_ [_ H]]]]; try congruence.
  destruct H as [d [o [stream [Hd [[Hf _] [Hg [Hst _]]]]]]].
  exists stream, (Yielded (chunk_frame status_payload)
                    :: d ++ [Yielded (terminal_frame json_dumps E o)]),
         (terminal_frame json_dumps E o).
  split; [exact Hg|]. split; [exact Hst|]. split; [reflexivity|].
  rewrite (@stream_frames d _ _ Hf). split; [reflexivity|]. split; [reflexivity|].
  fold adapter in Hd. rewrite Hd. simpl.
  destruct o; split; reflexivity.
Qed.

(** C4, as amended.  When the adapter fails with [e], the client gets the
    text [str(e)] redacted and then cut to 200 characters: as the [error]
    field of a status-500 JSON reply in buffered mode, as the message of
    the [error] frame in streaming mode.  That text is at most 200
    characters long, and it holds no occurrence of the configured
    credential when that credential is non-empty, neither starts nor ends
    with [*] and holds no [***].  An [error] frame always carries such a
    text.  A status-500 JSON reply carries either such a text or, when the
    adapter returned a result that could not be rendered, the text of the
    rendering exception, which is neither redacted nor cut; and the
    status-400 reply carries the fixed text [Missing prompt], not
    redacted either. *)
Theorem adapter_failure_redacted_truncated (t : trace) (resp : response) :
  run server net = (t, Return resp) ->
  (forall e,
     forallb is_space (prompt body) = false ->
     snd (run adapter net) = Raise e ->
     (want_sse request = false ->
      resp = JSONResponse
               (PDict [ (lit "error", PStr (slice_to 200 (redact E (exn_str e)))) ])
               500)
     /\ (want_sse request = true ->
         frames t
         = [ sse_event (lit "chunk") status_payload;
             sse_event (lit "error")
               (json_dumps
                  (PDict [ (lit "message",
                            PStr (slice_to 200 (redact E (exn_str e)))) ])) ]))
  /\ (forall content,
        resp = JSONResponse content 500 ->
        (exists e,
           snd (run adapter net) = Raise e
           /\ content
              = PDict [ (lit "error", PStr (slice_to 200 (redact E (exn_str e)))) ])
        \/ (exists v e',
              snd (run adapter net) = Return v
              /\ render_error v = Some e'
              /\ content = PDict [ (lit "error", PStr (exn_str e')) ]))
  /\ (forall stream media f,
        resp = StreamingResponse stream media ->
        In f (frames t) -> frame_event f = lit "error" ->
        exists e,
          snd (run adapter net) = Raise e
          /\ f = sse_event (lit "error")
                   (json_dumps
                      (PDict [ (lit "message",
                                PStr (slice_to 200 (redact E (exn_str e)))) ])))
  /\ (forall content,
        resp = JSONResponse content 400 ->
        content = PDict [ (lit "error", PStr (lit "Missing prompt")) ])
  /\ (forall e,
        List.length (slice_to 200 (redact E (exn_str e))) <= 200
        /\ (forall key,
              environ_get E (lit "OPENAI_API_KEY") = Some key ->
              key <> [] ->
              mask_safe key = true ->
              str_in key (slice_to 200 (redact E (exn_str e))) = false)).
Proof.
  intros Hrun.
  assert (Hcases := serve_cases).
  split; [|split; [|split; [|split]]].
  - intros e Hb Hraise.
    destruct Hcases as [[Hb' _] | [[_ [Hs H]] | [_ [Hs H]]]]; [congruence | |].
    + destruct H as [d [o [Hd [_ H]]]]. rewrite H in Hrun.
      fold adapter in Hd. rewrite Hd in Hraise. simpl in Hraise. subst o.
      simpl in Hrun. injection Hrun as _ <-.
      split; [reflexivity | congruence].
    + destruct H as [d [o [stream [Hd [[Hf _] [_ [_ H]]]]]]]. rewrite H in Hrun.
      fold adapter in Hd. rewrite Hd in Hraise. simpl in Hraise. subst o.
      injection Hrun as <- _.
      split; [congruence|]. intros _. exact (@stream_frames d _ _ Hf).
  - intros content ->.
    destruct Hcases as [[_ H] | [[_ [_ H]] | [_ [_ H]]]].
    + rewrite H in Hrun. discriminate Hrun.
    + destruct H as [d [o [Hd [_ H]]]]. rewrite H in Hrun.
      fold adapter in Hd. rewrite Hd. simpl snd.
      destruct o as [v | e]; simpl in Hrun.
      * destruct (render_error v) as [e' |] eqn:Hr; [|discriminate Hrun].
        right. exists v, e'. injection Hrun as _ <-. repeat split. exact Hr.
      * left. exists e. split; [reflexivity|]. injection Hrun as _ <-. reflexivity.
    + destruct H as [d [o [stream [_ [_ [_ [_ H]]]]]]]. rewrite H in Hrun.
      discriminate Hrun.
  - intros stream media f -> Hin Hev.
    destruct Hcases as [[_ H] | [[_ [_ H]] | [_ [_ H]]]].
    + rewrite H in Hrun. discriminate Hrun.
    + destruct H as [d [o [_ [_ H]]]]. rewrite H in Hrun.
      destruct o as [v | e]; simpl in Hrun;
        [destruct (render_error v)|]; discriminate Hrun.
    + destruct H as [d [o [stream' [Hd [[Hf _] [_ [_ H]]]]]]]. rewrite H in Hrun.
      injection Hrun as <- _. rewrite (@stream_frames d _ _ Hf) in Hin.
      fold adapter in Hd. rewrite Hd. simpl.
      destruct Hin as [<- | [<- | []]].
      * rewrite frame_event_chunk in Hev. discriminate Hev.
      * destruct o as [v | e]; simpl in Hev.
        -- rewrite frame_event_done in Hev. discriminate Hev.
        -- exists e. split; reflexivity.
  - intros content ->.
    destruct Hcases as [[_ H] | [[_ [_ H]] | [_ [_ H]]]].
    + rewrite H in Hrun. injection Hrun as _ <-. reflexivity.
    + destruct H as [d [o [_ [_ H]]]]. rewrite H in Hrun.
      destruct o as [v | e]; simpl in Hrun;
        [destruct (render_error v)|]; discriminate Hrun.
    + destruct H as [d [o [stream [_ [_ [_ [_ H]]]]]]]. rewrite H in Hrun.
      discriminate Hrun.
  - intros e. split; [apply (surfaced_length E e)|].
    intros key. apply surfaced_safe.
Qed.

(** C6.  A prompt that is empty or all whitespace is answered with status
    400 and [{"error": "Missing prompt"}]; the trace stays empty: no POST
    to a backend, no frame.  The answer depends on nothing else. *)
Theorem blank_prompt_rejected :
  forallb is_space (prompt body) = true ->
  strip (prompt body) = []
  /\ run server net
     = ([], Return (JSONResponse (PDict [ (lit "error", PStr (lit "Missing prompt")) ]) 400))
  /\ handler
     = ret (JSONResponse (PDict [ (lit "error", PStr (lit "Missing prompt")) ]) 400).
Proof.
  intros Hb. split; [apply strip_nil_iff; exact Hb|]. split.
  - apply emits_run, serve_blank. exact Hb.
  - apply generate_blank. exact Hb.
Qed.

(** C10.  When the [Accept] header asks for SSE and the prompt is blank,
    the reply is still the buffered status-400 JSON: no stream is returned,
    no frame is sent, nothing is posted. *)
Theorem blank_prompt_rejected_before_sse :
  want_sse request = true ->
  forallb is_space (prompt body) = true ->
  exists t resp,
    run server net = (t, Return resp)
    /\ resp = JSONResponse (PDict [ (lit "error", PStr (lit "Missing prompt")) ]) 400
    /\ (forall stream media, resp <> StreamingResponse stream media)
    /\ frames t = []
    /\ posts t = [].
Proof.
  intros _ Hb. exists [], missing_prompt.
  split; [apply emits_run, serve_blank; exact Hb|].
  split; [reflexivity|]. split; [discriminate|]. split; reflexivity.
Qed.

End Delivery.

Import Scenario.

Lemma sse_stream_two_events_witness :
  exists stream t terminal,
    run (generate dumps status renders [] accept_sse (ask "hello" None) None None)
        (backend 200 "ok" (Some (PDict [(lit "response", PStr (lit "<html><body>Hi</body></html>"))])))
    = ([], Return (StreamingResponse stream (lit "text/event-stream")))
    /\ run stream
           (backend 200 "ok" (Some (PDict [(lit "response", PStr (lit "<html><body>Hi</body></html>"))])))
       = (t, Return tt)
    /\ hd_error t = Some (Yielded (chunk_frame status))
    /\ frames t = [chunk_frame status; terminal]
    /\ map frame_event (frames t) = [lit "chunk"; frame_event terminal]
    /\ match snd (run (adapter_of [] (ask "hello" None) None None)
                      (backend 200 "ok" (Some (PDict [(lit "response", PStr (lit "<html><body>Hi</body></html>"))]))))
       with
       | Return v => terminal = done_frame dumps v /\ frame_event terminal = lit "done"
       | Raise e =>
           terminal = error_frame dumps (surfaced [] e)
           /\ frame_event terminal = lit "error"
       end.
Proof.
  apply (@sse_stream_two_events dumps status renders [] accept_sse (ask "hello" None) None None).
  - reflexivity.
  - reflexivity.
Defined.

Lemma adapter_failure_redacted_truncated_witness :
  (want_sse accept_json = false ->
   JSONResponse (PDict [ (lit "error", PStr (lit "OpenAI error: key *** refused")) ]) 500
   = JSONResponse
       (PDict [ (lit "error",
                 PStr (slice_to 200
                         (redact (with_key "sk*7")
                                 (exn_str (Exn RuntimeError (lit "OpenAI error: key sk*7 refused")))))) ])
       500)
  /\ List.length
       (slice_to 200 (redact (with_key "sk*7") (lit "OpenAI error: key sk*7 refused")))
     <= 200
  /\ str_in (lit "sk*7")
            (slice_to 200 (redact (with_key "sk*7") (lit "OpenAI error: key sk*7 refused")))
     = false.
Proof.
  destruct (@adapter_failure_redacted_truncated dumps status renders (with_key "sk*7")
              accept_json (ask "x" (Some "openai"%string)) None None
              (backend 500 "key sk*7 refused" None)
              [Posted (openai_request (with_key "sk*7") (lit "x") None (lit "sk*7"))]
              (JSONResponse
                 (PDict [ (lit "error", PStr (lit "OpenAI error: key *** refused")) ]) 500)
              eq_refl)
    as [Hfail [_ [_ [_ Hmsg]]]].
  split.
  - exact (proj1 (Hfail (Exn RuntimeError (lit "OpenAI error: key sk*7 refused"))
                        eq_refl eq_refl)).
  - destruct (Hmsg (Exn RuntimeError (lit "OpenAI error: key sk*7 refused")))
      as [Hlen Hclean].
    split; [exact Hlen|].
    exact (Hclean (lit "sk*7") eq_refl ltac:(discriminate) eq_refl).
Defined.

(** C4 as stated fails where the credential can be rebuilt by the mask:
    with [OPENAI_API_KEY=a*], a backend answer [aa*] with status 500 reaches
    the client as [OpenAI error: a***], which holds [a*].  And the fixed
    text of the validation failure is never redacted: with the credential
    [prompt], [Missing prompt] holds it. *)
Lemma adapter_failure_counterexample :
  (snd (run (serve dumps status renders (with_key "a*") accept_json
                   (ask "x" (Some "openai"%string)) None None)
            (backend 500 "aa*" None))
   = Return (JSONResponse (PDict [ (lit "error", PStr (lit "OpenAI error: a***")) ]) 500)
   /\ str_in (lit "a*") (lit "OpenAI error: a***") = true)
  /\ (snd (run (serve dumps status renders (with_key "prompt") accept_json
                      (ask "" None) None None)
               (backend 200 "ok" None))
      = Return (JSONResponse (PDict [ (lit "error", PStr (lit "Missing prompt")) ]) 400)
      /\ str_in (lit "prompt") (lit "Missing prompt") = true).
Proof. repeat split. Qed.

Lemma blank_prompt_rejected_witness :
  strip (lit "   ") = []
  /\ run (serve dumps status renders [] accept_json (ask "   " (Some "openai"%string)) None None)
         (backend 200 "ok" None)
     = ([], Return (JSONResponse (PDict [ (lit "error", PStr (lit "Missing prompt")) ]) 400))
  /\ generate dumps status renders [] accept_json (ask "   " (Some "openai"%string)) None None
     = ret (JSONResponse (PDict [ (lit "error", PStr (lit "Missing prompt")) ]) 400).
Proof.
  apply (@blank_prompt_rejected dumps status renders [] accept_json
           (ask "   " (Some "openai"%string)) None None (backend 200 "ok" None)).
  reflexivity.
Defined.

Lemma blank_prompt_rejected_before_sse_witness :
  exists t resp,
    run (serve dumps status renders [] accept_sse (ask "" None) None None)
        (backend 200 "ok" None)
    = (t, Return resp)
    /\ resp = JSONResponse (PDict [ (lit "error", PStr (lit "Missing prompt")) ]) 400
    /\ (forall stream media, resp <> StreamingResponse stream media)
    /\ frames t = []
    /\ posts t = [].
Proof.
  apply (@blank_prompt_rejected_before_sse dumps status renders [] accept_sse
           (ask "" None) None None (backend 200 "ok" None)).
  - reflexivity.
  - reflexivity.
Defined.

(* ================================================================== *)
(** * Results of a successful generation *)
(* ================================================================== *)

Lemma html_or_empty (text : str) :
  py_or (PStr (normalize_html text)) (PStr (lit "")) = PStr (normalize_html text).
Proof.
  unfold py_or. simpl.
  destruct (normalize_html text) eqn:H; [|reflexivity].
  exfalso. exact (normalize_html_nonempty text H).
Qed.

Lemma buffered_success (jd : pyval -> str) (st : str) (rf : pyval -> option exn) (E : environ)
    (request : Request) (body : GenerateBody) (xb xk : option str)
    (net : network) (t : trace) (content : pyval) :
  run (serve jd st rf E request body xb xk) net = (t, Return (JSONResponse content 200)) ->
  exists text, content = normalize text.
Proof.
  intros Hrun.
  pose proof (@serve_cases jd st rf E request body xb xk net) as H. cbv zeta in H.
  destruct H as [[_ H] | [[_ [_ H]] | [_ [_ H]]]].
  - rewrite H in Hrun. discriminate Hrun.
  - destruct H as [d [o [_ [[_ [_ Hv]] H]]]]. rewrite H in Hrun.
    destruct o as [v | e]; simpl in Hrun; [|discriminate Hrun].
    destruct (rf v); [discriminate Hrun|].
    injection Hrun as _ <-. apply Hv. reflexivity.
  - destruct H as [d [o [stream [_ [_ [_ [_ H]]]]]]]. rewrite H in Hrun.
    discriminate Hrun.
Qed.

Lemma wrapped_complete (x : str) :
  str_in (lit "<html") (lower x) = false ->
  complete_document (normalize_html x) = true.
Proof.
  intros H. rewrite (normalize_html_wrapped x H). unfold complete_document.
  rewrite !lower_app.
  change (lower (lit "<!doctype html><html><body><pre>"))
    with (lit "<!doctype html><html><body><pre>").
  change (lower (lit "</pre></body></html>")) with (lit "</pre></body></html>").
  generalize (lower x). intros lx.
  assert (Hafter :
            after_first (lit "<html")
              (lit "<!doctype html><html><body><pre>" ++ lx ++ lit "</pre></body></html>")
            = Some (lit "><body><pre>" ++ lx ++ lit "</pre></body></html>"))
    by reflexivity.
  rewrite Hafter. apply str_in_iff.
  exists (lit "><body><pre>" ++ lx ++ lit "</pre></body>"), [].
  rewrite <- !app_assoc. reflexivity.
Qed.

(** C8, as amended.  For every text, the empty one included, the [html]
    the normalizer produces is non-empty and holds the root marker [<html]
    (in some letter case).  A text without the marker is wrapped in a
    complete minimal document; a text with the marker is used as it is, so
    the [html] is then a complete document only if the text was one.  The
    [content] is the fixed [Preview updated.]; every value an adapter
    returns, every status-200 reply and every [done] frame carries such a
    result. *)
Theorem normalized_result_complete :
  (forall text,
     normalize_html text <> []
     /\ str_in (lit "<html") (lower (normalize_html text)) = true
     /\ normalize text
        = PDict [ (lit "html", PStr (normalize_html text));
                  (lit "content", PStr (lit "Preview updated."));
                  (lit "messages", PNone) ])
  /\ (forall text,
        str_in (lit "<html") (lower text) = false ->
        normalize_html text
        = lit "<!doctype html><html><body><pre>" ++ text ++ lit "</pre></body></html>"
        /\ complete_document (normalize_html text) = true)
  /\ (forall text,
        str_in (lit "<html") (lower text) = true ->
        normalize_html text = text
        /\ complete_document (normalize_html text) = complete_document text)
  /\ normalize_html (lit "")
     = lit "<!doctype html><html><body><pre></pre></body></html>"
  /\ (forall E net provider prompt model xb xk d v,
        run (chosen_adapter E provider prompt model xb xk) net = (d, Return v) ->
        exists text, v = normalize text)
  /\ (forall jd st rf E request body xb xk net t content,
        run (serve jd st rf E request body xb xk) net
        = (t, Return (JSONResponse content 200)) ->
        exists text, content = normalize text)
  /\ (forall jd text,
        done_frame jd (normalize text)
        = sse_event (lit "done")
            (jd (PDict [ (lit "done", PBool true);
                         (lit "html", PStr (normalize_html text));
                         (lit "content", PStr (lit "Preview updated.")) ]))).
Proof.
  split; [|split; [|split; [|split; [|split; [|split]]]]].
  - intros text. split; [apply normalize_html_nonempty|].
    split; [apply normalize_html_has_root | reflexivity].
  - intros text H. split; [apply normalize_html_wrapped | apply wrapped_complete];
      exact H.
  - intros text H. rewrite (normalize_html_verbatim text H). split; reflexivity.
  - reflexivity.
  - intros E net provider prompt model xb xk d v Hrun.
    destruct (chosen_adapter_emits E net provider prompt model xb xk)
      as [d' [o' [Hd [_ [_ Hv]]]]].
    apply emits_run in Hd. rewrite Hd in Hrun. injection Hrun as _ ->.
    apply Hv. reflexivity.
  - apply buffered_success.
  - intros jd text. unfold done_frame.
    change (field (normalize text) "html") with (PStr (normalize_html text)).
    rewrite html_or_empty. reflexivity.
Qed.

(** C8 as stated fails: a text that holds the marker is passed on as it
    is, and need not be a complete document.  The bare [<html] and a line
    of prose that mentions [<HTML>] both come back unchanged, with no
    closing tag. *)
Lemma normalized_result_counterexample :
  (normalize_html (lit "<html") = lit "<html"
   /\ complete_document (normalize_html (lit "<html")) = false)
  /\ (normalize_html (lit "Put it inside <HTML> tags.") = lit "Put it inside <HTML> tags."
      /\ complete_document (normalize_html (lit "Put it inside <HTML> tags.")) = false).
Proof. repeat split. Qed.

Example scenario_A_buffered :
  snd (run (serve dumps status renders [] accept_json (ask "hello" None) None None)
           (backend 200 "ok"
              (Some (PDict [(lit "response", PStr (lit "<html><body>Hi</body></html>"))]))))
  = Return (JSONResponse
              (PDict [ (lit "html", PStr (lit "<html><body>Hi</body></html>"));
                       (lit "content", PStr (lit "Preview updated."));
                       (lit "messages", PNone) ]) 200).
Proof. reflexivity. Qed.

(* ================================================================== *)
(** * The hosted adapter without a credential *)
(* ================================================================== *)

Lemma redact_missing_key_text (E : environ) :
  environ_get E (lit "OPENAI_API_KEY") = None
  \/ environ_get E (lit "OPENAI_API_KEY") = Some [] ->
  slice_to 200 (redact E (lit "Missing OpenAI API key"))
  = lit "***M***i***s***s***i***n***g*** ***O***p***e***n***A***I*** ***A***P***I*** ***k***e***y***".
Proof. intros H. rewrite (redact_unconfigured E _ H). reflexivity. Qed.

(** C5, on the code.  With no credential in the override and none
    configured, the hosted adapter raises [Missing OpenAI API key] before
    any POST, and the buffered reply has status 500.  Its [error] field,
    though, is that text after [redact] ran with an empty credential: the
    mask stands before every character and at the end. *)
Theorem missing_credential_reply (jd : pyval -> str) (st : str) (rf : pyval -> option exn) (E : environ)
    (request : Request) (body : GenerateBody) (xb xk : option str) (net : network) :
  forallb is_space (prompt body) = false ->
  want_sse request = false ->
  pick_provider E (provider body) = lit "openai" ->
  resolved_key E xk = None ->
  run (adapter_of E body xb xk) net
  = ([], Raise (Exn RuntimeError (lit "Missing OpenAI API key")))
  /\ run (serve jd st rf E request body xb xk) net
     = ([], Return
              (JSONResponse
                 (PDict [ (lit "error",
                           PStr (lit "***M***i***s***s***i***n***g*** ***O***p***e***n***A***I*** ***A***P***I*** ***k***e***y***")) ])
                 500)).
Proof.
  intros Hb Hs Hp Hk.
  assert (Hd : emits (adapter_of E body xb xk) net []
                     (Raise (Exn RuntimeError (lit "Missing OpenAI API key")))).
  { unfold adapter_of, chosen_adapter. rewrite Hp. simpl str_eqb.
    apply openai_adapter_no_key. exact Hk. }
  split; [apply emits_run; exact Hd|].
  apply emits_run.
  pose proof (@serve_buffered jd st rf E net request body xb xk [] _ Hb Hs Hd) as H.
  simpl buffered_reply in H. unfold surfaced in H. simpl exn_str in H.
  rewrite redact_missing_key_text in H; [exact H|].
  unfold resolved_key in Hk.
  destruct xk as [[|c k]|]; try discriminate;
    destruct (environ_get E (lit "OPENAI_API_KEY")) as [[|c' k']|];
    try discriminate; auto.
Qed.

Lemma missing_credential_reply_witness :
  run (adapter_of [] (ask "x" (Some "openai"%string)) None None) (backend 200 "ok" None)
  = ([], Raise (Exn RuntimeError (lit "Missing OpenAI API key")))
  /\ run (serve dumps status renders [] accept_json (ask "x" (Some "openai"%string)) None None)
         (backend 200 "ok" None)
     = ([], Return
              (JSONResponse
                 (PDict [ (lit "error",
                           PStr (lit "***M***i***s***s***i***n***g*** ***O***p***e***n***A***I*** ***A***P***I*** ***k***e***y***")) ])
                 500)).
Proof.
  apply (@missing_credential_reply dumps status renders [] accept_json
           (ask "x" (Some "openai"%string)) None None (backend 200 "ok" None));
    reflexivity.
Defined.

Example missing_credential_text_lost :
  str_in (lit "Missing")
         (lit "***M***i***s***s***i***n***g*** ***O***p***e***n***A***I*** ***A***P***I*** ***k***e***y***")
  = false
  /\ str_in (lit "key")
            (lit "***M***i***s***s***i***n***g*** ***O***p***e***n***A***I*** ***A***P***I*** ***k***e***y***")
     = false.
Proof. split; reflexivity. Qed.

(* ================================================================== *)
(** * Further properties: redaction, selection, negotiation *)
(* ================================================================== *)

Lemma str_in_self (x : str) : str_in x x = true.
Proof.
  apply str_in_iff. exists [], []. rewrite app_nil_r. reflexivity.
Qed.

Lemma interleave_length (mask msg : str) :
  List.length (flat_map (fun c => c :: mask) msg)
  = (1 + List.length mask) * List.length msg.
Proof.
  induction msg as [|c msg IH]; [simpl; lia|].
  change (flat_map (fun c0 => c0 :: mask) (c :: msg))
    with ((c :: mask) ++ flat_map (fun c0 => c0 :: mask) msg).
  rewrite length_app, IH. simpl List.length. lia.
Qed.

(** X1.  With no credential configured (the variable unset or empty),
    [redact] is not the identity: it puts the mask before every character
    and at the end, so a message of [n] characters comes back with
    [4 n + 3]. *)
Theorem redact_without_credential (E : environ) (msg : str) :
  environ_get E (lit "OPENAI_API_KEY") = None
  \/ environ_get E (lit "OPENAI_API_KEY") = Some [] ->
  redact E msg = lit "***" ++ flat_map (fun c => c :: lit "***") msg
  /\ List.length (redact E msg) = 4 * List.length msg + 3
  /\ redact E msg <> msg.
Proof.
  intros H. rewrite (redact_unconfigured E msg H).
  assert (Hlen : List.length (lit "***" ++ flat_map (fun c => c :: lit "***") msg)
                 = 4 * List.length msg + 3).
  { rewrite length_app, interleave_length. simpl List.length. lia. }
  split; [reflexivity|]. split; [exact Hlen|].
  intros Heq. rewrite Heq in Hlen. lia.
Qed.

Lemma redact_without_credential_witness :
  redact [(lit "PROVIDER", lit "ollama")] (lit "timeout")
  = lit "***" ++ flat_map (fun c => c :: lit "***") (lit "timeout")
  /\ List.length (redact [(lit "PROVIDER", lit "ollama")] (lit "timeout"))
     = 4 * List.length (lit "timeout") + 3
  /\ redact [(lit "PROVIDER", lit "ollama")] (lit "timeout") <> lit "timeout".
Proof.
  apply (@redact_without_credential [(lit "PROVIDER", lit "ollama")] (lit "timeout")).
  left. reflexivity.
Defined.

(** X2.  With a configured, non-empty credential that holds no [*],
    redacting twice is redacting once. *)
Theorem redact_idempotent (E : environ) (key msg : str) :
  environ_get E (lit "OPENAI_API_KEY") = Some key ->
  key <> [] ->
  ~ In "*"%char key ->
  redact E (redact E msg) = redact E msg.
Proof.
  intros Hk Hne Hstar.
  apply (redact_absent E (redact E msg) Hk Hne).
  exact (redact_clean E msg Hk Hne Hstar).
Qed.

Lemma redact_idempotent_witness :
  redact [(lit "OPENAI_API_KEY", lit "sk-7")]
         (redact [(lit "OPENAI_API_KEY", lit "sk-7")] (lit "sk-sk-7-7 and sk-7"))
  = redact [(lit "OPENAI_API_KEY", lit "sk-7")] (lit "sk-sk-7-7 and sk-7").
Proof.
  apply (@redact_idempotent [(lit "OPENAI_API_KEY", lit "sk-7")] (lit "sk-7")).
  - reflexivity.
  - discriminate.
  - simpl. intros H. repeat (destruct H as [H | H]; [discriminate|]). exact H.
Defined.

(** ** Trimming a padded text *)

Lemma is_space_lower_char (c : ascii) : is_space (lower_char c) = is_space c.
Proof. destruct c as [[] [] [] [] [] [] [] []]; reflexivity. Qed.

Lemma forallb_space_lower (s : str) :
  forallb is_space (lower s) = forallb is_space s.
Proof.
  induction s as [|c s IH]; [reflexivity|].
  simpl. rewrite is_space_lower_char, IH. reflexivity.
Qed.

Lemma forallb_rev {A} (p : A -> bool) (l : list A) :
  forallb p (rev l) = forallb p l.
Proof.
  induction l as [|a l IH]; [reflexivity|].
  simpl. rewrite forallb_app, IH. simpl. rewrite andb_true_r. apply andb_comm.
Qed.

Lemma lstrip_by_pad (p : ascii -> bool) (ws s : str) :
  forallb p ws = true -> lstrip_by p (ws ++ s) = lstrip_by p s.
Proof.
  induction ws as [|c ws IH]; [reflexivity|].
  simpl. intros H. apply andb_true_iff in H. destruct H as [Hc Hws].
  rewrite Hc. exact (IH Hws).
Qed.

(** Padding around a core that neither starts nor ends with a character
    of [p] is stripped, and the core is kept. *)
Lemma strip_by_padded (p : ascii -> bool) (ws1 ws2 : str)
    (c : ascii) (r : str) (c' : ascii) (r' : str) :
  forallb p ws1 = true -> forallb p ws2 = true ->
  p c = false -> rev (c :: r) = c' :: r' -> p c' = false ->
  rstrip_by p (lstrip_by p (ws1 ++ (c :: r) ++ ws2)) = c :: r.
Proof.
  intros H1 H2 Hc Hrev Hc'.
  rewrite (lstrip_by_pad p ws1 _ H1).
  change ((c :: r) ++ ws2) with (c :: (r ++ ws2)).
  cbn [lstrip_by]. rewrite Hc.
  unfold rstrip_by.
  change (c :: r ++ ws2) with ((c :: r) ++ ws2).
  rewrite rev_app_distr, lstrip_by_pad by (rewrite forallb_rev; exact H2).
  rewrite Hrev. cbn [lstrip_by]. rewrite Hc'. rewrite <- Hrev.
  apply rev_involutive.
Qed.

(** X3.  A provider field that spells [openai] in any letter case, padded
    by any whitespace on either side, selects the hosted provider, whatever
    the process configuration. *)
Theorem pick_provider_padded (E : environ) (ws1 s ws2 : str) :
  forallb is_space ws1 = true ->
  forallb is_space ws2 = true ->
  lower s = lit "openai" ->
  pick_provider E (Some (ws1 ++ s ++ ws2)) = lit "openai".
Proof.
  intros H1 H2 Hs.
  assert (Hne : exists c r, ws1 ++ s ++ ws2 = c :: r).
  { destruct (ws1 ++ s ++ ws2) as [|c r] eqn:Happ; [|exists c, r; reflexivity].
    apply app_eq_nil in Happ. destruct Happ as [_ Happ].
    apply app_eq_nil in Happ. destruct Happ as [-> _]. discriminate Hs. }
  destruct Hne as [c [r Hne]].
  unfold pick_provider. rewrite Hne. cbn [opt_or]. rewrite <- Hne.
  rewrite !lower_app, Hs. unfold strip.
  change (lit "openai") with ("o"%char :: lit "penai").
  rewrite (@strip_by_padded is_space (lower ws1) (lower ws2)
             "o"%char (lit "penai") "i"%char (lit "anepo")).
  - reflexivity.
  - rewrite forallb_space_lower. exact H1.
  - rewrite forallb_space_lower. exact H2.
  - reflexivity.
  - reflexivity.
  - reflexivity.
Qed.

Lemma pick_provider_padded_witness :
  pick_provider [(lit "PROVIDER", lit "ollama")]
                (Some (lit "  " ++ lit "OpenAI" ++ lit " "))
  = lit "openai".
Proof.
  apply (@pick_provider_padded [(lit "PROVIDER", lit "ollama")]
           (lit "  ") (lit "OpenAI") (lit " ")); reflexivity.
Defined.

(** X4.  The selector's answer is a fixed point: fed back as the provider
    field, under any configuration, it selects itself. *)
Theorem pick_provider_stable (E E' : environ) (p : option str) :
  pick_provider E' (Some (pick_provider E p)) = pick_provider E p.
Proof.
  unfold pick_provider at 2 3.
  destruct (str_eqb _ (lit "openai")); reflexivity.
Qed.

(** X5.  Streaming is chosen by a substring test on the lower-cased
    [Accept] header: a header that holds [text/event-stream] anywhere, in
    any letter case, selects it; a missing or empty header does not. *)
Theorem want_sse_substring :
  want_sse {| headers_accept := None |} = false
  /\ want_sse {| headers_accept := Some [] |} = false
  /\ (forall a, want_sse {| headers_accept := Some a |}
                = str_in (lit "text/event-stream") (lower a))
  /\ (forall pre m post,
        lower m = lit "text/event-stream" ->
        want_sse {| headers_accept := Some (pre ++ m ++ post) |} = true).
Proof.
  split; [reflexivity|]. split; [reflexivity|].
  assert (H : forall a, want_sse {| headers_accept := Some a |}
                        = str_in (lit "text/event-stream") (lower a)).
  { intros a. unfold want_sse. cbn [headers_accept]. rewrite str_or_empty.
    reflexivity. }
  split; [exact H|].
  intros pre m post Hm. rewrite H, !lower_app, Hm. apply str_in_app_intro.
Qed.

Example want_sse_examples :
  want_sse {| headers_accept := Some (lit "application/json, Text/Event-Stream;q=0.5") |} = true
  /\ want_sse {| headers_accept := Some (lit "application/json") |} = false.
Proof. split; reflexivity. Qed.

(* ================================================================== *)
(** * Further properties: the normalizer *)
(* ================================================================== *)

(** X6.  Normalization is idempotent on every text, with or without the
    root marker: the [html] it produces normalizes to the same result. *)
Theorem normalize_idempotent (x : str) :
  exists h,
    field (normalize x) "html" = PStr h
    /\ normalize h = normalize x.
Proof.
  exists (normalize_html x). split; [reflexivity|].
  unfold normalize. rewrite normalize_html_idem. reflexivity.
Qed.

(** X7.  The text is never escaped or cut: it stands verbatim in the
    [html], either as the whole of it or between the fixed opening and
    closing of the shell. *)
Theorem normalize_html_keeps_text (x : str) :
  str_in x (normalize_html x) = true
  /\ (normalize_html x = x
      \/ normalize_html x
         = lit "<!doctype html><html><body><pre>" ++ x ++ lit "</pre></body></html>")
  /\ List.length x <= List.length (normalize_html x) <= List.length x + 52.
Proof.
  unfold normalize_html.
  destruct (str_in (lit "<html") (lower x)).
  - split; [apply str_in_self|]. split; [left; reflexivity | lia].
  - split; [apply str_in_app_intro|]. split; [right; reflexivity|].
    rewrite !length_app. simpl List.length. lia.
Qed.

(* ================================================================== *)
(** * Further properties: the adapters *)
(* ================================================================== *)

Section AdapterRuns.

Variable E : environ.
Variable net : network.

(** A call of the local adapter, in full: one POST, then the answer read. *)
Lemma ollama_adapter_run (prompt : str) (model base_url : option str) :
  run (ollama_adapter E prompt model base_url) net
  = ([Posted (ollama_request E prompt model base_url)],
     adapter_outcome "Ollama error: "
       (fun data => py_get data (lit "response") (PStr (lit "")))
       (net (ollama_request E prompt model base_url))).
Proof.
  unfold run, ollama_adapter, adapter_outcome, bind, post, lift, raise.
  fold (ollama_request E prompt model base_url).
  destruct (net (ollama_request E prompt model base_url)) as [r | e];
    [|reflexivity].
  cbn [obind app]. destruct (negb (status_code r =? 200)%Z); [reflexivity|].
  destruct (json r) as [data | e]; [|reflexivity].
  cbn [obind].
  destruct (py_get data (lit "response") (PStr (lit ""))); reflexivity.
Qed.

Lemma resolved_key_some (api_key : option str) (key : str) :
  resolved_key E api_key = Some key ->
  key <> []
  /\ match api_key with
     | Some ((_ :: _) as k) => Some k
     | _ => env E (lit "OPENAI_API_KEY") None
     end = Some key.
Proof.
  unfold resolved_key, env.
  destruct api_key as [[|c k]|];
    try (intros H; injection H as <-; split; [discriminate | reflexivity]);
    destruct (environ_get E (lit "OPENAI_API_KEY")) as [[|c' k']|];
    try discriminate;
    intros H; injection H as <-; split; try discriminate; reflexivity.
Qed.

(** A call of the hosted adapter that has a credential. *)
Lemma openai_adapter_run (prompt : str) (model api_key : option str) (key : str) :
  resolved_key E api_key = Some key ->
  run (openai_adapter E prompt model api_key) net
  = ([Posted (openai_request E prompt model key)],
     adapter_outcome "OpenAI error: " extract_content
       (net (openai_request E prompt model key))).
Proof.
  intros Hk. apply resolved_key_some in Hk. destruct Hk as [Hne Hk].
  unfold run, openai_adapter. rewrite Hk.
  destruct key as [|c k]; [congruence|].
  unfold adapter_outcome, bind, post, lift, raise.
  fold (openai_request E prompt model (c :: k)).
  destruct (net (openai_request E prompt model (c :: k))) as [r | e];
    [|reflexivity].
  cbn [obind app]. destruct (negb (status_code r =? 200)%Z); [reflexivity|].
  destruct (json r) as [data | e]; [|reflexivity].
  cbn [obind].
  destruct (extract_content data); reflexivity.
Qed.

Lemma status_not_200 (r : http_response) :
  status_code r <> 200%Z -> negb (status_code r =? 200)%Z = true.
Proof.
  intros H. destruct (Z.eqb_spec (status_code r) 200); [congruence | reflexivity].
Qed.

Lemma status_200 (r : http_response) :
  status_code r = 200%Z -> negb (status_code r =? 200)%Z = false.
Proof. intros ->. reflexivity. Qed.

End AdapterRuns.

(** C7, on the code.  Line 99 gives the empty string for a key that is
    missing, but not for a completion that is missing: on a status-200
    body whose [choices] is the empty list, taking the first element
    raises [IndexError], and the hosted adapter fails with it after its
    one POST. *)
Theorem extract_content_empty_choices (E : environ) (net : network)
    (prompt : str) (model api_key : option str) (key : str)
    (r : http_response) (d : list (str * pyval)) :
  resolved_key E api_key = Some key ->
  net (openai_request E prompt model key) = Return r ->
  status_code r = 200%Z ->
  json r = Return (PDict d) ->
  assoc (lit "choices") d = Some (PList []) ->
  extract_content (PDict d) = Raise (Exn IndexError (lit "list index out of range"))
  /\ run (openai_adapter E prompt model api_key) net
     = ([Posted (openai_request E prompt model key)],
        Raise (Exn IndexError (lit "list index out of range"))).
Proof.
  intros Hk Hnet Hst Hjson Hc.
  assert (Hx : extract_content (PDict d)
               = Raise (Exn IndexError (lit "list index out of range"))).
  { unfold extract_content. cbn [py_get obind]. rewrite Hc. reflexivity. }
  split; [exact Hx|].
  rewrite (openai_adapter_run E net prompt model api_key Hk), Hnet.
  unfold adapter_outcome. cbn [obind].
  rewrite (status_200 r Hst), Hjson. cbn [obind]. rewrite Hx. reflexivity.
Qed.

Lemma extract_content_empty_choices_witness :
  extract_content (PDict [(lit "choices", PList [])])
  = Raise (Exn IndexError (lit "list index out of range"))
  /\ run (openai_adapter (Scenario.with_key "sk-7") (lit "hi") None None)
         (Scenario.backend 200 "-" (Some (PDict [(lit "choices", PList [])])))
     = ([Posted (openai_request (Scenario.with_key "sk-7") (lit "hi") None (lit "sk-7"))],
        Raise (Exn IndexError (lit "list index out of range"))).
Proof.
  apply (@extract_content_empty_choices (Scenario.with_key "sk-7")
           (Scenario.backend 200 "-" (Some (PDict [(lit "choices", PList [])])))
           (lit "hi") None None (lit "sk-7")
           (HttpResponse 200 (lit "-") (Return (PDict [(lit "choices", PList [])])))
           [(lit "choices", PList [])]);
    reflexivity.
Defined.

Example empty_choices_reply :
  snd (run (serve Scenario.dumps Scenario.status Scenario.renders [] Scenario.accept_json
                  (Scenario.ask "hi" (Some "openai"%string)) None (Some (lit "sk-7")))
           (Scenario.backend 200 "-" (Some (PDict [(lit "choices", PList [])]))))
  = Return (JSONResponse
              (PDict [ (lit "error",
                        PStr (redact [] (lit "list index out of range"))) ])
              500).
Proof. reflexivity. Qed.

(** X8.  When the local backend answers with a status other than 200, the
    local adapter raises a [RuntimeError] whose text is [Ollama error: ]
    followed by the first 200 characters of the body, at most 214
    characters in all; the body is never decoded, and exactly one POST was
    made. *)
Theorem ollama_adapter_bad_status (E : environ) (net : network)
    (prompt : str) (model base_url : option str) (r : http_response) :
  net (ollama_request E prompt model base_url) = Return r ->
  status_code r <> 200%Z ->
  run (ollama_adapter E prompt model base_url) net
  = ([Posted (ollama_request E prompt model base_url)],
     Raise (Exn RuntimeError (lit "Ollama error: " ++ slice_to 200 (text r))))
  /\ List.length (lit "Ollama error: " ++ slice_to 200 (text r)) <= 214.
Proof.
  intros Hnet Hst. split.
  - rewrite ollama_adapter_run, Hnet. unfold adapter_outcome. cbn [obind].
    rewrite (status_not_200 r Hst). reflexivity.
  - rewrite length_app. pose proof (slice_to_length 200 (text r)).
    change (List.length (lit "Ollama error: ")) with 14. lia.
Qed.

Lemma ollama_adapter_bad_status_witness :
  run (ollama_adapter [] (lit "hi") None None)
      (Scenario.backend 404 "model not found" (Some (PDict [])))
  = ([Posted (ollama_request [] (lit "hi") None None)],
     Raise (Exn RuntimeError
              (lit "Ollama error: "
               ++ slice_to 200 (text (HttpResponse 404 (lit "model not found")
                                                    (Return (PDict [])))))))
  /\ List.length
       (lit "Ollama error: "
        ++ slice_to 200 (text (HttpResponse 404 (lit "model not found")
                                             (Return (PDict [])))))
     <= 214.
Proof.
  apply (@ollama_adapter_bad_status [] (Scenario.backend 404 "model not found" (Some (PDict [])))
           (lit "hi") None None).
  - reflexivity.
  - discriminate.
Defined.

(** X9.  The hosted adapter does the same with its own label: a status
    other than 200 raises [OpenAI error: ] followed by the first 200
    characters of the body, after exactly one POST and without decoding. *)
Theorem openai_adapter_bad_status (E : environ) (net : network)
    (prompt : str) (model api_key : option str) (key : str) (r : http_response) :
  resolved_key E api_key = Some key ->
  net (openai_request E prompt model key) = Return r ->
  status_code r <> 200%Z ->
  run (openai_adapter E prompt model api_key) net
  = ([Posted (openai_request E prompt model key)],
     Raise (Exn RuntimeError (lit "OpenAI error: " ++ slice_to 200 (text r))))
  /\ List.length (lit "OpenAI error: " ++ slice_to 200 (text r)) <= 214.
Proof.
  intros Hk Hnet Hst. split.
  - rewrite (openai_adapter_run E net prompt model api_key Hk), Hnet.
    unfold adapter_outcome. cbn [obind].
    rewrite (status_not_200 r Hst). reflexivity.
  - rewrite length_app. pose proof (slice_to_length 200 (text r)).
    change (List.length (lit "OpenAI error: ")) with 14. lia.
Qed.

Lemma openai_adapter_bad_status_witness :
  run (openai_adapter (Scenario.with_key "sk-7") (lit "hi") None None)
      (Scenario.backend 429 "rate limit" None)
  = ([Posted (openai_request (Scenario.with_key "sk-7") (lit "hi") None (lit "sk-7"))],
     Raise (Exn RuntimeError
              (lit "OpenAI error: "
               ++ slice_to 200
                    (text (HttpResponse 429 (lit "rate limit")
                             (Raise (Exn JSONDecodeError (lit "Expecting value"))))))))
  /\ List.length
       (lit "OpenAI error: "
        ++ slice_to 200
             (text (HttpResponse 429 (lit "rate limit")
                      (Raise (Exn JSONDecodeError (lit "Expecting value"))))))
     <= 214.
Proof.
  apply (@openai_adapter_bad_status (Scenario.with_key "sk-7")
           (Scenario.backend 429 "rate limit" None) (lit "hi") None None (lit "sk-7")).
  - reflexivity.
  - reflexivity.
  - discriminate.
Defined.

(** ** Where and what the adapters post *)

Lemma lstrip_by_split (p : ascii -> bool) (s : str) :
  exists ws, s = ws ++ lstrip_by p s /\ forallb p ws = true.
Proof.
  induction s as [|c s [ws [Hs Hws]]]; [exists []; split; reflexivity|].
  simpl. destruct (p c) eqn:Hc.
  - exists (c :: ws). split; [simpl; rewrite <- Hs; reflexivity|].
    simpl. rewrite Hc. exact Hws.
  - exists []. split; reflexivity.
Qed.

(** What [rstrip_by] removes is a run of characters of [p] at the end, and
    what it leaves does not end with one. *)
Lemma rstrip_by_split (p : ascii -> bool) (s : str) :
  exists ws,
    s = rstrip_by p s ++ ws
    /\ forallb p ws = true
    /\ (forall c r, rev (rstrip_by p s) = c :: r -> p c = false).
Proof.
  unfold rstrip_by.
  destruct (lstrip_by_split p (rev s)) as [ws [Hs Hws]].
  exists (rev ws). split; [|split].
  - rewrite <- rev_app_distr, <- Hs, rev_involutive. reflexivity.
  - rewrite forallb_rev. exact Hws.
  - intros c r. rewrite rev_involutive. apply lstrip_by_head.
Qed.

Lemma all_slashes (ws : str) :
  forallb (fun c => existsb (Ascii.eqb c) (lit "/")) ws = true ->
  ws = repeat "/"%char (List.length ws).
Proof.
  induction ws as [|c ws IH]; [reflexivity|].
  simpl. intros H. apply andb_true_iff in H. destruct H as [Hc Hws].
  rewrite orb_false_r in Hc. apply Ascii.eqb_eq in Hc. subst c.
  rewrite <- (IH Hws). reflexivity.
Qed.

(** X10.  The local adapter posts once, without headers, to the base URL
    (the override when it is a non-empty string, else [OLLAMA_BASE_URL],
    else [http://localhost:11434]) with every trailing [/] removed and
    [/api/generate] appended; this holds however the backend answers. *)
Theorem ollama_url_trailing_slashes (E : environ) (net : network)
    (prompt : str) (model base_url : option str) :
  exists b k rq,
    opt_or base_url (env_str E (lit "OLLAMA_BASE_URL") (lit "http://localhost:11434"))
    = b ++ repeat "/"%char k
    /\ (forall c r, rev b = c :: r -> c <> "/"%char)
    /\ fst (run (ollama_adapter E prompt model base_url) net) = [Posted rq]
    /\ req_url rq = b ++ lit "/api/generate"
    /\ req_headers rq = [].
Proof.
  set (base := opt_or base_url
                 (env_str E (lit "OLLAMA_BASE_URL") (lit "http://localhost:11434"))).
  destruct (rstrip_by_split (fun c => existsb (Ascii.eqb c) (lit "/")) base)
    as [ws [Hs [Hws Hlast]]].
  exists (rstrip_chars (lit "/") base), (List.length ws),
         (ollama_request E prompt model base_url).
  split; [|split; [|split; [|split]]].
  - rewrite <- (all_slashes ws Hws). exact Hs.
  - intros c r Hrev Hc. apply Hlast in Hrev. subst c. discriminate Hrev.
  - rewrite ollama_adapter_run. reflexivity.
  - reflexivity.
  - reflexivity.
Qed.

Example ollama_url_example :
  req_url (ollama_request [(lit "OLLAMA_BASE_URL", lit "http://gpu:11434//")]
                          (lit "hi") None (Some (lit "")))
  = lit "http://gpu:11434/api/generate".
Proof. reflexivity. Qed.

(** X11.  The hosted adapter posts once to the fixed chat-completions URL
    with a bearer token: the override when it is a non-empty string, and the
    configured credential only when the override is missing or empty. *)
Theorem openai_credential_precedence (E : environ) (net : network)
    (prompt : str) (model api_key : option str) :
  (forall k, api_key = Some k -> k <> [] ->
     exists rq,
       fst (run (openai_adapter E prompt model api_key) net) = [Posted rq]
       /\ req_url rq = lit "https://api.openai.com/v1/chat/completions"
       /\ req_headers rq
          = [ (lit "Authorization", lit "Bearer " ++ k);
              (lit "Content-Type", lit "application/json") ])
  /\ (forall k, api_key = None \/ api_key = Some [] ->
        environ_get E (lit "OPENAI_API_KEY") = Some k -> k <> [] ->
        exists rq,
          fst (run (openai_adapter E prompt model api_key) net) = [Posted rq]
          /\ req_url rq = lit "https://api.openai.com/v1/chat/completions"
          /\ req_headers rq
             = [ (lit "Authorization", lit "Bearer " ++ k);
                 (lit "Content-Type", lit "application/json") ]).
Proof.
  split.
  - intros k -> Hk. exists (openai_request E prompt model k).
    rewrite (@openai_adapter_run E net prompt model (Some k) k).
    + repeat split.
    + destruct k; [congruence | reflexivity].
  - intros k Hnone Henv Hk. exists (openai_request E prompt model k).
    rewrite (@openai_adapter_run E net prompt model api_key k).
    + repeat split.
    + unfold resolved_key. rewrite Henv.
      destruct Hnone as [-> | ->]; destruct k; congruence.
Qed.

(** ** How the adapters read a status-200 answer *)

(** X12.  On a status-200 answer whose body decodes to an object, the local
    adapter reads the [response] key: a missing key counts as the empty
    text (and gives the empty shell page), a string is normalized, and any
    other value, [null] included, makes the adapter raise
    [AttributeError]. *)
Theorem ollama_response_field (E : environ) (net : network)
    (prompt : str) (model base_url : option str)
    (r : http_response) (d : list (str * pyval)) :
  net (ollama_request E prompt model base_url) = Return r ->
  status_code r = 200%Z ->
  json r = Return (PDict d) ->
  snd (run (ollama_adapter E prompt model base_url) net)
  = match assoc (lit "response") d with
    | None => Return (normalize (lit ""))
    | Some (PStr s) => Return (normalize s)
    | Some v => Raise (no_attribute v "lower")
    end.
Proof.
  intros Hnet Hst Hjson.
  rewrite ollama_adapter_run, Hnet. unfold adapter_outcome. cbn [obind snd].
  rewrite (status_200 r Hst), Hjson. cbn [obind py_get].
  destruct (assoc (lit "response") d) as [[| | | | | |]|]; reflexivity.
Qed.

Lemma ollama_response_field_witness :
  snd (run (ollama_adapter [] (lit "hi") None None)
           (Scenario.backend 200 "{}" (Some (PDict []))))
  = match assoc (lit "response") [] with
    | None => Return (normalize (lit ""))
    | Some (PStr s) => Return (normalize s)
    | Some v => Raise (no_attribute v "lower")
    end.
Proof.
  apply (@ollama_response_field [] (Scenario.backend 200 "{}" (Some (PDict [])))
           (lit "hi") None None
           (HttpResponse 200 (lit "{}") (Return (PDict []))) []);
    reflexivity.
Defined.

Example ollama_null_response :
  snd (run (ollama_adapter [] (lit "hi") None None)
           (Scenario.backend 200 "-" (Some (PDict [(lit "response", PNone)]))))
  = Raise (Exn AttributeError (lit "'NoneType' object has no attribute 'lower'")).
Proof. reflexivity. Qed.

(** X13.  On a status-200 answer that has the whole path, the hosted
    adapter takes [content or ""]: a non-empty string is normalized; a
    value that counts as false ([null], [false], [0], an empty string, list
    or object) counts as the empty text; any other value makes the adapter
    raise [AttributeError]. *)
Theorem openai_content_value (E : environ) (net : network)
    (prompt : str) (model api_key : option str) (key : str)
    (r : http_response) (d first : list (str * pyval)) (rest : list pyval)
    (msg : list (str * pyval)) (c : pyval) :
  resolved_key E api_key = Some key ->
  net (openai_request E prompt model key) = Return r ->
  status_code r = 200%Z ->
  json r = Return (PDict d) ->
  assoc (lit "choices") d = Some (PList (PDict first :: rest)) ->
  assoc (lit "message") first = Some (PDict msg) ->
  assoc (lit "content") msg = Some c ->
  snd (run (openai_adapter E prompt model api_key) net)
  = match c with
    | PStr (a :: s) => Return (normalize (a :: s))
    | _ => if truthy c then Raise (no_attribute c "lower")
           else Return (normalize (lit ""))
    end.
Proof.
  intros Hk Hnet Hst Hjson H1 H2 H3.
  rewrite (openai_adapter_run E net prompt model api_key Hk), Hnet.
  unfold adapter_outcome. cbn [obind snd].
  rewrite (status_200 r Hst), Hjson. cbn [obind].
  unfold extract_content. cbn [py_get obind]. rewrite H1.
  cbn [py_get py_item0 obind]. rewrite H2.
  cbn [py_get obind]. rewrite H3. cbn [obind]. unfold py_or.
  destruct c as [| b | z | nz | [|a s] | [|x l] | [|x l]]; try reflexivity.
  - destruct b; reflexivity.
  - simpl truthy. destruct (negb (z =? 0)%Z); reflexivity.
  - destruct nz; reflexivity.
Qed.

Lemma openai_content_value_witness :
  snd (run (openai_adapter (Scenario.with_key "sk-7") (lit "hi") None None)
           (Scenario.backend 200 "-"
              (Some (PDict [(lit "choices",
                             PList [PDict [(lit "message",
                                            PDict [(lit "content", PNone)])]])]))))
  = match PNone with
    | PStr (a :: s) => Return (normalize (a :: s))
    | _ => if truthy PNone then Raise (no_attribute PNone "lower")
           else Return (normalize (lit ""))
    end.
Proof.
  apply (@openai_content_value (Scenario.with_key "sk-7")
           (Scenario.backend 200 "-"
              (Some (PDict [(lit "choices",
                             PList [PDict [(lit "message",
                                            PDict [(lit "content", PNone)])]])])))
           (lit "hi") None None (lit "sk-7")
           (HttpResponse 200 (lit "-")
              (Return (PDict [(lit "choices",
                               PList [PDict [(lit "message",
                                              PDict [(lit "content", PNone)])]])])))
           [(lit "choices",
             PList [PDict [(lit "message", PDict [(lit "content", PNone)])]])]
           [(lit "message", PDict [(lit "content", PNone)])]
           []
           [(lit "content", PNone)]
           PNone);
    reflexivity.
Defined.

(* ================================================================== *)
(** * Further properties: the handler *)
(* ================================================================== *)

Lemma stream_posts (d : trace) (f1 f2 : bytes) :
  posts (Yielded f1 :: d ++ [Yielded f2]) = posts d.
Proof.
  change (Yielded f1 :: d ++ [Yielded f2]) with ([Yielded f1] ++ d ++ [Yielded f2]).
  rewrite !posts_app. simpl. apply app_nil_r.
Qed.




(** X16.  A request with a valid prompt that is routed to the local model
    makes exactly one POST, in either delivery mode.  It carries no header
    (so no credential), the prompt trimmed and set between the system
    instruction and the [Assistant:] cue, and the request's model trimmed,
    or the configured default when that is missing or blank. *)
Theorem local_request_sent (jd : pyval -> str) (st : str) (rf : pyval -> option exn) (E : environ)
    (request : Request) (body : GenerateBody) (xb xk : option str) (net : network) :
  forallb is_space (prompt body) = false ->
  pick_provider E (provider body) = lit "ollama" ->
  exists rq,
    posts (fst (run (serve jd st rf E request body xb xk) net)) = [rq]
    /\ req_headers rq = []
    /\ field (req_json rq) "prompt"
       = PStr (sys_prompt ++ nl ++ lit "User: " ++ strip (prompt body)
                 ++ nl ++ lit "Assistant:")
    /\ field (req_json rq) "model"
       = PStr (match strip (opt_or (model body) (lit "")) with
               | [] => env_str E (lit "OLLAMA_MODEL") (lit "llama3")
               | m => m
               end)
    /\ field (req_json rq) "stream" = PBool false.
Proof.
  intros Hb Hp.
  exists (ollama_request E (strip (prompt body)) (model_of body) xb).
  assert (Hd : fst (run (adapter_of E body xb xk) net)
               = [Posted (ollama_request E (strip (prompt body)) (model_of body) xb)]).
  { unfold adapter_of, chosen_adapter. rewrite Hp.
    change (str_eqb (lit "ollama") (lit "openai")) with false. cbv iota.
    rewrite ollama_adapter_run. reflexivity. }
  split.
  - pose proof (@serve_cases jd st rf E request body xb xk net) as H. cbv zeta in H.
    destruct H as [[H _] | [[_ [_ H]] | [_ [_ H]]]]; [congruence | |].
    + destruct H as [d [o [Hrun [_ H]]]]. rewrite H. rewrite Hrun in Hd.
      simpl in Hd |- *. rewrite Hd. reflexivity.
    + destruct H as [d [o [stream [Hrun [_ [_ [_ H]]]]]]]. rewrite H.
      rewrite Hrun in Hd. cbn [fst] in Hd |- *. rewrite stream_posts, Hd.
      reflexivity.
  - split; [reflexivity|]. split; [reflexivity|]. split; [|reflexivity].
    unfold model_of.
    destruct (strip (opt_or (model body) (lit ""))); reflexivity.
Qed.

Lemma local_request_sent_witness :
  exists rq,
    posts (fst (run (serve Scenario.dumps Scenario.status Scenario.renders [] Scenario.accept_sse
                           {| prompt := lit "  a page "; provider := None;
                              model := Some (lit "  ") |} None None)
                    (Scenario.backend 200 "ok" None)))
    = [rq]
    /\ req_headers rq = []
    /\ field (req_json rq) "prompt"
       = PStr (sys_prompt ++ nl ++ lit "User: " ++ strip (lit "  a page ")
                 ++ nl ++ lit "Assistant:")
    /\ field (req_json rq) "model"
       = PStr (match strip (opt_or (Some (lit "  ")) (lit "")) with
               | [] => env_str [] (lit "OLLAMA_MODEL") (lit "llama3")
               | m => m
               end)
    /\ field (req_json rq) "stream" = PBool false.
Proof.
  apply (@local_request_sent Scenario.dumps Scenario.status Scenario.renders [] Scenario.accept_sse
           {| prompt := lit "  a page "; provider := None; model := Some (lit "  ") |}
           None None (Scenario.backend 200 "ok" None));
    reflexivity.
Defined.

(* ================================================================== *)
(** * Further properties: SSE framing *)
(* ================================================================== *)

Lemma encode_utf8_app (a b : str) :
  encode_utf8 (a ++ b) = encode_utf8 a ++ encode_utf8 b.
Proof. apply flat_map_app. Qed.

Lemma encode_utf8_cons (c : ascii) (s : str) :
  encode_utf8 (c :: s) = encode_utf8 [c] ++ encode_utf8 s.
Proof. apply (encode_utf8_app [c] s). Qed.

Lemma no_newline_encode_char (c : ascii) :
  no_newline (encode_utf8 [c]) = negb (Ascii.eqb c "010").
Proof. destruct c as [[] [] [] [] [] [] [] []]; reflexivity. Qed.

(** Encoding brings in no line break: every byte of a two-byte form is
    above 127. *)
Lemma no_newline_encode (s : str) :
  no_newline (encode_utf8 s) = no_newline s.
Proof.
  induction s as [|c s IH]; [reflexivity|].
  rewrite encode_utf8_cons. unfold no_newline in *.
  rewrite forallb_app, IH.
  change (forallb (fun c0 => negb (Ascii.eqb c0 "010")) (encode_utf8 [c]))
    with (no_newline (encode_utf8 [c])).
  rewrite no_newline_encode_char. reflexivity.
Qed.

Lemma decode_encode_char (c : ascii) (b : bytes) :
  decode_utf8 (encode_utf8 [c] ++ b) = c :: decode_utf8 b.
Proof. destruct c as [[] [] [] [] [] [] [] []]; reflexivity. Qed.

Lemma decode_encode (s : str) : decode_utf8 (encode_utf8 s) = s.
Proof.
  induction s as [|c s IH]; [reflexivity|].
  rewrite encode_utf8_cons, decode_encode_char, IH. reflexivity.
Qed.

Lemma until_newline_line (a rest : bytes) :
  no_newline a = true -> until_newline (a ++ "010"%char :: rest) = a.
Proof.
  induction a as [|c a IH]; [reflexivity|].
  simpl. intros H. apply andb_true_iff in H. destruct H as [Hc Ha].
  apply negb_true_iff in Hc. rewrite Hc, (IH Ha). reflexivity.
Qed.

Lemma after_newline_line (a rest : bytes) :
  no_newline a = true -> after_newline (a ++ "010"%char :: rest) = rest.
Proof.
  induction a as [|c a IH]; [reflexivity|].
  simpl. intros H. apply andb_true_iff in H. destruct H as [Hc Ha].
  apply negb_true_iff in Hc. rewrite Hc. exact (IH Ha).
Qed.

(** The frame on the wire. *)
Lemma sse_event_wire (event data : str) :
  sse_event event data
  = lit "event: " ++ encode_utf8 event ++ "010"%char
      :: lit "data: " ++ encode_utf8 data ++ ["010"%char; "010"%char].
Proof.
  unfold sse_event. rewrite !encode_utf8_app. unfold nl.
  change (encode_utf8 (lit "event: ")) with (lit "event: ").
  change (encode_utf8 (lit "data: ")) with (lit "data: ").
  change (encode_utf8 ["010"%char]) with ["010"%char].
  reflexivity.
Qed.

(** X17.  A frame can be read back.  When neither the event name nor the
    data holds a line break, the frame is two lines and a blank one; the
    first line after [event: ] decodes to the event name and the second
    after [data: ] decodes to the data. *)
Theorem sse_event_round_trip (event data : str) :
  no_newline event = true ->
  no_newline data = true ->
  decode_utf8 (frame_event (sse_event event data)) = event
  /\ decode_utf8 (frame_data (sse_event event data)) = data
  /\ sse_event event data
     = lit "event: " ++ encode_utf8 event ++ "010"%char
         :: lit "data: " ++ encode_utf8 data ++ ["010"%char; "010"%char].
Proof.
  intros He Hd.
  assert (He' : no_newline (encode_utf8 event) = true)
    by (rewrite no_newline_encode; exact He).
  assert (Hd' : no_newline (encode_utf8 data) = true)
    by (rewrite no_newline_encode; exact Hd).
  split; [|split; [|apply sse_event_wire]].
  - unfold frame_event. rewrite sse_event_wire.
    change (skipn 7 (lit "event: " ++ ?x)) with x.
    rewrite (until_newline_line _ _ He'). apply decode_encode.
  - unfold frame_data.
    assert (Hline : no_newline (lit "event: " ++ encode_utf8 event) = true).
    { unfold no_newline in *. rewrite forallb_app, He'. reflexivity. }
    assert (Hw : sse_event event data
                 = (lit "event: " ++ encode_utf8 event)
                     ++ "010"%char
                     :: lit "data: " ++ encode_utf8 data ++ ["010"%char; "010"%char])
      by (rewrite sse_event_wire, <- app_assoc; reflexivity).
    rewrite Hw, (after_newline_line _ _ Hline).
    change (skipn 6 (lit "data: " ++ ?x)) with x.
    rewrite (until_newline_line _ _ Hd'). apply decode_encode.
Qed.

Lemma sse_event_round_trip_witness :
  decode_utf8 (frame_event (sse_event (lit "done") (lit "caf" ++ ["233"%char]))) = lit "done"
  /\ decode_utf8 (frame_data (sse_event (lit "done") (lit "caf" ++ ["233"%char]))) = lit "caf" ++ ["233"%char]
  /\ sse_event (lit "done") (lit "caf" ++ ["233"%char])
     = lit "event: " ++ encode_utf8 (lit "done") ++ "010"%char
         :: lit "data: " ++ encode_utf8 (lit "caf" ++ ["233"%char]) ++ ["010"%char; "010"%char].
Proof.
  apply (@sse_event_round_trip (lit "done") (lit "caf" ++ ["233"%char])); reflexivity.
Defined.

(* ================================================================== *)
(** * Further properties: routes through the handler *)
(* ================================================================== *)

Section Routes.

Variable jd : pyval -> str.
Variable st : str.
Variable rf : pyval -> option exn.
Variable E : environ.
Variable request : Request.
Variable body : GenerateBody.
Variables xb xk : option str.
Variable net : network.

(** For a valid prompt, the POSTs of the request are those of the adapter
    it is routed to, in either mode. *)
Lemma serve_posts :
  forallb is_space (prompt body) = false ->
  posts (fst (run (serve jd st rf E request body xb xk) net))
  = posts (fst (run (adapter_of E body xb xk) net)).
Proof.
  intros Hb.
  pose proof (@serve_cases jd st rf E request body xb xk net) as H. cbv zeta in H.
  destruct H as [[H _] | [[_ [_ H]] | [_ [_ H]]]]; [congruence | |].
  - destruct H as [d [o [Hrun [_ H]]]]. rewrite H, Hrun. reflexivity.
  - destruct H as [d [o [stream [Hrun [_ [_ [_ H]]]]]]]. rewrite H, Hrun.
    cbn [fst]. apply stream_posts.
Qed.

Lemma serve_buffered_run :
  forallb is_space (prompt body) = false ->
  want_sse request = false ->
  run (serve jd st rf E request body xb xk) net
  = (fst (run (adapter_of E body xb xk) net),
     Return (buffered_reply rf E (snd (run (adapter_of E body xb xk) net)))).
Proof.
  intros Hb Hs.
  pose proof (@serve_cases jd st rf E request body xb xk net) as H. cbv zeta in H.
  destruct H as [[H _] | [[_ [_ H]] | [_ [H _]]]]; try congruence.
  destruct H as [d [o [Hrun [_ H]]]]. rewrite H, Hrun. reflexivity.
Qed.

Lemma adapter_of_local :
  pick_provider E (provider body) = lit "ollama" ->
  adapter_of E body xb xk
  = ollama_adapter E (strip (prompt body)) (model_of body) xb.
Proof.
  intros Hp. unfold adapter_of, chosen_adapter. rewrite Hp. reflexivity.
Qed.

Lemma adapter_of_hosted :
  pick_provider E (provider body) = lit "openai" ->
  adapter_of E body xb xk
  = openai_adapter E (strip (prompt body)) (model_of body) xk.
Proof.
  intros Hp. unfold adapter_of, chosen_adapter. rewrite Hp. reflexivity.
Qed.

(** X18.  A request routed to the hosted provider without a credential
    (none in the override, none configured) makes no POST in either
    delivery mode; in streaming mode the stream is the [chunk] frame and an
    [error] frame. *)
Theorem hosted_without_credential_never_posts :
  forallb is_space (prompt body) = false ->
  pick_provider E (provider body) = lit "openai" ->
  resolved_key E xk = None ->
  posts (fst (run (serve jd st rf E request body xb xk) net)) = []
  /\ (want_sse request = true ->
      map frame_event (frames (fst (run (serve jd st rf E request body xb xk) net)))
      = [lit "chunk"; lit "error"]).
Proof.
  intros Hb Hp Hk.
  assert (Hd : run (adapter_of E body xb xk) net
               = ([], Raise (Exn RuntimeError (lit "Missing OpenAI API key")))).
  { rewrite (adapter_of_hosted Hp).
    apply emits_run, openai_adapter_no_key. exact Hk. }
  split.
  - rewrite (serve_posts Hb), Hd. reflexivity.
  - intros Hs.
    pose proof (@serve_cases jd st rf E request body xb xk net) as H. cbv zeta in H.
    destruct H as [[H _] | [[_ [H _]] | [_ [_ H]]]]; try congruence.
    destruct H as [d [o [stream [Hrun [_ [_ [_ H]]]]]]]. rewrite H.
    rewrite Hd in Hrun. injection Hrun as <- <-. reflexivity.
Qed.

(** X19.  A request with a valid prompt that is routed to the hosted
    provider with a credential makes exactly one POST, in either mode: to
    the fixed chat-completions URL, with that credential as bearer token,
    the system instruction and the trimmed prompt as the two messages, and
    the request's model trimmed, or the configured default when that is
    missing or blank.  The base-URL override plays no part. *)
Theorem hosted_request_sent (key : str) :
  forallb is_space (prompt body) = false ->
  pick_provider E (provider body) = lit "openai" ->
  resolved_key E xk = Some key ->
  exists rq,
    posts (fst (run (serve jd st rf E request body xb xk) net)) = [rq]
    /\ req_url rq = lit "https://api.openai.com/v1/chat/completions"
    /\ req_headers rq
       = [ (lit "Authorization", lit "Bearer " ++ key);
           (lit "Content-Type", lit "application/json") ]
    /\ field (req_json rq) "messages"
       = PList [ PDict [ (lit "role", PStr (lit "system"));
                         (lit "content", PStr sys_prompt) ];
                 PDict [ (lit "role", PStr (lit "user"));
                         (lit "content", PStr (strip (prompt body))) ] ]
    /\ field (req_json rq) "model"
       = PStr (match strip (opt_or (model body) (lit "")) with
               | [] => env_str E (lit "OPENAI_MODEL") (lit "gpt-4o-mini")
               | m => m
               end)
    /\ field (req_json rq) "stream" = PBool false.
Proof.
  intros Hb Hp Hk.
  exists (openai_request E (strip (prompt body)) (model_of body) key).
  split.
  - rewrite (serve_posts Hb), (adapter_of_hosted Hp).
    rewrite (openai_adapter_run E net _ _ xk Hk). reflexivity.
  - split; [reflexivity|]. split; [reflexivity|]. split; [reflexivity|].
    split; [|reflexivity].
    unfold model_of.
    destruct (strip (opt_or (model body) (lit ""))); reflexivity.
Qed.

(** X20.  For a request routed to the local model in buffered mode, a POST
    that fails in transport (refused connection, timeout) and a status-200
    body that does not decode both end in a status-500 reply whose [error]
    is the text of that exception, redacted and cut to 200 characters,
    after the one POST. *)
Theorem local_call_failures (e : exn) :
  forallb is_space (prompt body) = false ->
  want_sse request = false ->
  pick_provider E (provider body) = lit "ollama" ->
  net (ollama_request E (strip (prompt body)) (model_of body) xb) = Raise e
  \/ (exists r,
        net (ollama_request E (strip (prompt body)) (model_of body) xb) = Return r
        /\ status_code r = 200%Z /\ json r = Raise e) ->
  run (serve jd st rf E request body xb xk) net
  = ([Posted (ollama_request E (strip (prompt body)) (model_of body) xb)],
     Return (JSONResponse
               (PDict [ (lit "error", PStr (slice_to 200 (redact E (exn_str e)))) ])
               500)).
Proof.
  intros Hb Hs Hp Hnet.
  rewrite (serve_buffered_run Hb Hs), (adapter_of_local Hp), ollama_adapter_run.
  cbn [fst snd]. unfold adapter_outcome.
  destruct Hnet as [-> | [r [-> [Hst Hj]]]]; cbn [obind].
  - reflexivity.
  - rewrite (status_200 r Hst), Hj. reflexivity.
Qed.

End Routes.

Lemma hosted_without_credential_never_posts_witness :
  posts (fst (run (serve Scenario.dumps Scenario.status Scenario.renders [] Scenario.accept_sse
                         (Scenario.ask "x" (Some "openai"%string))
                         (Some (lit "http://gpu:11434")) None)
                  (Scenario.backend 200 "ok" None)))
  = []
  /\ (want_sse Scenario.accept_sse = true ->
      map frame_event
          (frames (fst (run (serve Scenario.dumps Scenario.status Scenario.renders [] Scenario.accept_sse
                                   (Scenario.ask "x" (Some "openai"%string))
                                   (Some (lit "http://gpu:11434")) None)
                            (Scenario.backend 200 "ok" None))))
      = [lit "chunk"; lit "error"]).
Proof.
  apply (@hosted_without_credential_never_posts Scenario.dumps Scenario.status Scenario.renders []
           Scenario.accept_sse (Scenario.ask "x" (Some "openai"%string))
           (Some (lit "http://gpu:11434")) None (Scenario.backend 200 "ok" None));
    reflexivity.
Defined.

Lemma hosted_request_sent_witness :
  exists rq,
    posts (fst (run (serve Scenario.dumps Scenario.status Scenario.renders (Scenario.with_key "sk-7")
                           Scenario.accept_json
                           {| prompt := lit " a page "; provider := Some (lit "OpenAI");
                              model := Some (lit " gpt-4o ") |}
                           (Some (lit "http://gpu:11434")) (Some (lit "sk-override")))
                    (Scenario.backend 200 "ok" None)))
    = [rq]
    /\ req_url rq = lit "https://api.openai.com/v1/chat/completions"
    /\ req_headers rq
       = [ (lit "Authorization", lit "Bearer " ++ lit "sk-override");
           (lit "Content-Type", lit "application/json") ]
    /\ field (req_json rq) "messages"
       = PList [ PDict [ (lit "role", PStr (lit "system"));
                         (lit "content", PStr sys_prompt) ];
                 PDict [ (lit "role", PStr (lit "user"));
                         (lit "content", PStr (strip (lit " a page "))) ] ]
    /\ field (req_json rq) "model"
       = PStr (match strip (opt_or (Some (lit " gpt-4o ")) (lit "")) with
               | [] => env_str (Scenario.with_key "sk-7") (lit "OPENAI_MODEL") (lit "gpt-4o-mini")
               | m => m
               end)
    /\ field (req_json rq) "stream" = PBool false.
Proof.
  apply (@hosted_request_sent Scenario.dumps Scenario.status Scenario.renders (Scenario.with_key "sk-7")
           Scenario.accept_json
           {| prompt := lit " a page "; provider := Some (lit "OpenAI");
              model := Some (lit " gpt-4o ") |}
           (Some (lit "http://gpu:11434")) (Some (lit "sk-override"))
           (Scenario.backend 200 "ok" None) (lit "sk-override"));
    reflexivity.
Defined.

Lemma local_call_failures_witness :
  run (serve Scenario.dumps Scenario.status Scenario.renders (Scenario.with_key "sk-7")
             Scenario.accept_json (Scenario.ask "hi" None) None None)
      (fun _ => Raise (Exn HTTPError (lit "timed out")))
  = ([Posted (ollama_request (Scenario.with_key "sk-7")
                (strip (prompt (Scenario.ask "hi" None)))
                (model_of (Scenario.ask "hi" None)) None)],
     Return (JSONResponse
               (PDict [ (lit "error",
                         PStr (slice_to 200
                                 (redact (Scenario.with_key "sk-7")
                                         (exn_str (Exn HTTPError (lit "timed out")))))) ])
               500)).
Proof.
  apply (@local_call_failures Scenario.dumps Scenario.status Scenario.renders (Scenario.with_key "sk-7")
           Scenario.accept_json (Scenario.ask "hi" None) None None
           (fun _ => Raise (Exn HTTPError (lit "timed out")))
           (Exn HTTPError (lit "timed out"))).
  - reflexivity.
  - reflexivity.
  - reflexivity.
  - left. reflexivity.
Defined.
